(** * Muhurat finder: the scoring engine, the horizon ranker and the
      Swiss Ephemeris calculation layer

    Shallow embedding of
    - [src/App.tsx]: [calculateLunarDay], [getNakshatra],
      [calculateMuhuratScore], [generateOptimizedMuhurats];
    - the proof-of-concept module [sweph-poc] and the calculator script
      embedded in [src/swiss-ephemeris/sweph-service.ts]:
      [calculatePlanetaryPositions], [calculateTithi], [calculateYoga],
      [calculateMuhurta];
    - [SwissEphemerisService.runCalculation] of [sweph-service.ts].

    Conventions.  JavaScript numbers that only ever hold integers (time
    values, day counts, scores) are [Z]; numbers that hold angles and Julian
    days are exact rationals [Q], so binary64 rounding is not part of the
    model.  [undefined] is [None]; a thrown exception is [None] of the
    function's result. *)

From Stdlib Require Import ZArith QArith Qround List String Ascii Bool.
From Stdlib Require Import Lia Lqa Permutation Sorted DecimalString.
Import ListNotations.

Open Scope string_scope.
Open Scope Z_scope.

(* ===================================================================== *)
(** ** JavaScript primitives used by the sources *)
(* ===================================================================== *)

Module JS.

(** [a % b] on integer-valued numbers: the remainder takes the sign of
    the dividend.  [-0 === 0] holds, so a zero remainder is [0]. *)
Definition rem (a b : Z) : Z := Z.rem a b.

(** [arr[i]] for an integer-valued index: [undefined] out of range. *)
Definition index {A : Type} (arr : list A) (i : Z) : option A :=
  if i <? 0 then None else nth_error arr (Z.to_nat i).

(** [arr.includes(x)] on an array of numbers. *)
Definition includes (arr : list Z) (x : Z) : bool :=
  existsb (Z.eqb x) arr.

(** [arr.includes(s)] on an array of strings, where [s] may be
    [undefined]. *)
Definition includesStr (arr : list string) (s : option string) : bool :=
  match s with
  | Some x => existsb (String.eqb x) arr
  | None => false
  end.

(** [obj[k] || 0] for an object literal with numeric keys and non-zero
    numeric values. *)
Fixpoint prop (obj : list (Z * Z)) (k : Z) : option Z :=
  match obj with
  | [] => None
  | (k', v) :: rest => if k =? k' then Some v else prop rest k
  end.

Definition orZero (v : option Z) : Z :=
  match v with
  | Some x => x
  | None => 0
  end.

(** [n.toString()] for an integer. *)
Definition toString (n : Z) : string := NilZero.string_of_int (Z.to_int n).

(** [`${s}`] for a string that may be [undefined]. *)
Definition show (s : option string) : string :=
  match s with
  | Some x => x
  | None => "undefined"
  end.

Definition lowerAscii (c : ascii) : ascii :=
  let n := nat_of_ascii c in
  if (Nat.leb 65 n && Nat.leb n 90)%bool then ascii_of_nat (n + 32) else c.

(** [s.toLowerCase()] on ASCII text. *)
Fixpoint toLowerCase (s : string) : string :=
  match s with
  | EmptyString => EmptyString
  | String c rest => String (lowerAscii c) (toLowerCase rest)
  end.

(** [s.padStart(2, '0')]. *)
Definition padStart2 (s : string) : string :=
  match String.length s with
  | O => "00"
  | S O => "0" ++ s
  | _ => s
  end.

(** [Array.prototype.sort(cmp)]: the sort is stable, so for a comparator
    that is a total preorder the result is determined; it is computed
    here by insertion from the right, which keeps equal elements in their
    original order. *)
Section Sort.
Context {A : Type} (cmp : A -> A -> Z).

Fixpoint insert (x : A) (l : list A) : list A :=
  match l with
  | [] => [x]
  | y :: l' => if cmp x y <=? 0 then x :: y :: l' else y :: insert x l'
  end.

Definition sort (l : list A) : list A := fold_right insert [] l.
End Sort.

(** [arr.slice(0, n)]. *)
Definition slice0 {A : Type} (n : nat) (arr : list A) : list A := firstn n arr.

End JS.

(* ===================================================================== *)
(** ** The [Date] object *)
(* ===================================================================== *)

(** A valid [Date] is its time value: milliseconds since the epoch, UTC.
    The host's time zone is a fixed offset [LocalTZA] (milliseconds). *)
Module JSDate.

Definition msPerDay : Z := 1000 * 60 * 60 * 24.

Definition Day (t : Z) : Z := t / msPerDay.

(** 1970-01-01 was a Thursday; Sunday is 0. *)
Definition WeekDay (t : Z) : Z := (Day t + 4) mod 7.

(** Month (0 = January) of a day number in the proleptic Gregorian
    calendar. *)
Definition MonthFromDay (d : Z) : Z :=
  let z := d + 719468 in
  let doe := z mod 146097 in
  let yoe := (doe - doe / 1460 + doe / 36524 - doe / 146096) / 365 in
  let doy := doe - (365 * yoe + yoe / 4 - yoe / 100) in
  let mp := (5 * doy + 2) / 153 in
  if mp <? 10 then mp + 2 else mp - 10.

Definition MonthFromTime (t : Z) : Z := MonthFromDay (Day t).

(** Day number of a civil date (month 1 to 12). *)
Definition dayFromCivil (y m d : Z) : Z :=
  let y' := if m <=? 2 then y - 1 else y in
  let era := y' / 400 in
  let yoe := y' - era * 400 in
  let mp := if 2 <? m then m - 3 else m + 9 in
  let doy := (153 * mp + 2) / 5 + d - 1 in
  let doe := yoe * 365 + yoe / 4 - yoe / 100 + doy in
  era * 146097 + doe - 719468.

Section Host.
Variable LocalTZA : Z.

Definition LocalTime (t : Z) : Z := t + LocalTZA.

(** [date.getDay()] *)
Definition getDay (t : Z) : Z := WeekDay (LocalTime t).

(** [date.getMonth()] *)
Definition getMonth (t : Z) : Z := MonthFromTime (LocalTime t).

(** [date.setDate(date.getDate() + i)]: the local calendar date moves
    [i] days on and the local time of day is kept. *)
Definition addDays (t i : Z) : Z := t + i * msPerDay.
End Host.

(** A stand-in for [new Date(s)] on the date-only form [YYYY-MM-DD]
    produced by a date input; such a string denotes UTC midnight.
    Anything else is an invalid date here. *)
Definition digit (c : ascii) : option Z :=
  let n := nat_of_ascii c in
  if (Nat.leb 48 n && Nat.leb n 57)%bool then Some (Z.of_nat (n - 48)) else None.

Fixpoint digits (acc : Z) (s : string) : option Z :=
  match s with
  | EmptyString => Some acc
  | String c rest =>
      match digit c with
      | Some d => digits (10 * acc + d) rest
      | None => None
      end
  end.

Definition isoDateParse (s : string) : option Z :=
  if negb (Nat.eqb (String.length s) 10) then None else
  if negb (String.eqb (substring 4 1 s) "-" && String.eqb (substring 7 1 s) "-")%bool
  then None else
  match digits 0 (substring 0 4 s), digits 0 (substring 5 2 s),
        digits 0 (substring 8 2 s) with
  | Some y, Some m, Some d =>
      if ((1 <=? m) && (m <=? 12) && (1 <=? d) && (d <=? 31))%bool
      then Some (dayFromCivil y m d * msPerDay)
      else None
  | _, _, _ => None
  end.

End JSDate.

(* ===================================================================== *)
(** ** [src/App.tsx]: catalogs and records *)
(* ===================================================================== *)

Module BirthData.
Record t : Type := mk { date : string; time : string; location : string }.
End BirthData.

Module EventType.
(** The [icon] glyph is display-only and left out. *)
Record t : Type := mk { name : string; color : string; auspicious : list Z }.
End EventType.

Module Muhurat.
(** [date] holds the UTC day number of the candidate; the source stores
    its rendering [toISOString().split('T')[0]]. *)
Record t : Type := mk {
  id : string;
  date : Z;
  time : option string;
  type : string;
  score : Z;
  nakshatra : option string;
  tithi : string;
  description : string;
  details : string
}.
End Muhurat.

Definition NAKSHATRAS : list string :=
  [ "Ashwini"; "Bharani"; "Krittika"; "Rohini"; "Mrigashira"; "Ardra";
    "Punarvasu"; "Pushya"; "Ashlesha"; "Magha"; "Purva Phalguni"; "Uttara Phalguni";
    "Hasta"; "Chitra"; "Swati"; "Vishakha"; "Anuradha"; "Jyeshtha";
    "Mula"; "Purva Ashadha"; "Uttara Ashadha"; "Shravana"; "Dhanishta";
    "Shatabhisha"; "Purva Bhadrapada"; "Uttara Bhadrapada"; "Revati" ].

Definition EVENT_TYPES : list (string * EventType.t) :=
  [ ("wedding", EventType.mk "Wedding" "bg-rose-100 text-rose-800" [1; 3; 5; 7; 10; 11; 13]);
    ("travel", EventType.mk "Travel" "bg-blue-100 text-blue-800" [2; 4; 6; 8; 10; 12; 14]);
    ("business", EventType.mk "Business" "bg-green-100 text-green-800" [1; 2; 5; 9; 11; 13; 15]);
    ("property", EventType.mk "Property" "bg-amber-100 text-amber-800" [2; 5; 7; 10; 12; 14]);
    ("education", EventType.mk "Education" "bg-purple-100 text-purple-800" [1; 4; 5; 9; 10; 11]) ].

(** [EVENT_TYPES[eventType]]; any other key has no [auspicious] array and
    the access throws. *)
Fixpoint lookupEvent (cat : list (string * EventType.t)) (k : string) : option EventType.t :=
  match cat with
  | [] => None
  | (k', e) :: rest => if String.eqb k k' then Some e else lookupEvent rest k
  end.

(** [new Date('2024-01-01').getTime()] *)
Definition baseDate : Z := 1704067200000.

Definition calculateLunarDay (date : Z) : Z :=
  let diffTime := date - baseDate in
  let diffDays := diffTime / (1000 * 60 * 60 * 24) in
  JS.rem diffDays 30 + 1.

Definition getNakshatra (date : Z) : option string :=
  let diffTime := date - baseDate in
  let diffDays := diffTime / (1000 * 60 * 60 * 24) in
  JS.index NAKSHATRAS (JS.rem diffDays 27).

Definition auspiciousDays : list (Z * Z) := [(1, 15); (3, 20); (4, 10); (5, 15)].

Definition auspiciousNakshatras : list string :=
  ["Rohini"; "Pushya"; "Hasta"; "Swati"; "Uttara Phalguni"].

Section Engine.
(** The host: its time zone offset and its [Date] parser ([None] is an
    invalid date, whose month is [NaN]). *)
Variable LocalTZA : Z.
Variable Date_parse : string -> option Z.

(** [new Date(birthData.date).getMonth()] *)
Definition birthMonthOf (birthData : BirthData.t) : option Z :=
  option_map (JSDate.getMonth LocalTZA) (Date_parse (BirthData.date birthData)).

Definition calculateMuhuratScore
    (date : Z) (eventType : string) (birthData : BirthData.t) : option Z :=
  let tithi := calculateLunarDay date in
  let nakshatra := getNakshatra date in
  let dayOfWeek := JSDate.getDay LocalTZA date in
  let score := 50 in
  match lookupEvent EVENT_TYPES eventType with
  | None => None
  | Some ev =>
      let score :=
        if JS.includes (EventType.auspicious ev) tithi then score + 25 else score in
      let score := score + JS.orZero (JS.prop auspiciousDays dayOfWeek) in
      let score :=
        if JS.includesStr auspiciousNakshatras nakshatra then score + 15 else score in
      let birthMonth := birthMonthOf birthData in
      let currentMonth := JSDate.getMonth LocalTZA date in
      let score :=
        match birthMonth with
        | Some bm => if JS.rem (currentMonth - bm) 6 =? 0 then score + 10 else score
        | None => score
        end in
      Some (Z.min 100 (Z.max 10 score))
  end.

End Engine.

(* ===================================================================== *)
(** ** [src/App.tsx]: the horizon ranker *)
(* ===================================================================== *)

Definition timeSlots : list string := ["06:00"; "07:30"; "10:15"; "11:45"].

Section Ranker.
Variable LocalTZA : Z.
Variable Date_parse : string -> option Z.
(** [random k] is the value returned by the [k]-th call of
    [Math.random()] made during one run (counted from 0). *)
Variable random : nat -> Q.

(** The object pushed for day offset [i], when [k] calls of
    [Math.random()] have been made before. *)
Definition makeMuhurat
    (ev : EventType.t) (eventType : string) (date : Z) (i : Z) (k : nat)
    (score : Z) : Muhurat.t :=
  let tithi := calculateLunarDay date in
  let nakshatra := getNakshatra date in
  let selectedTime :=
    JS.index timeSlots (Qfloor (random k * inject_Z (Z.of_nat (List.length timeSlots)))) in
  {| Muhurat.id := "muhurat_" ++ JS.toString i;
     Muhurat.date := JSDate.Day date;
     Muhurat.time := selectedTime;
     Muhurat.type := eventType;
     Muhurat.score := score;
     Muhurat.nakshatra := nakshatra;
     Muhurat.tithi := JS.toString tithi;
     Muhurat.description :=
       if 85 <? score then "Exceptionally auspicious"
       else if 75 <? score then "Highly favorable" else "Auspicious";
     Muhurat.details :=
       JS.show nakshatra ++ " nakshatra, Tithi " ++ JS.toString tithi
       ++ ". Planetary alignment favorable for "
       ++ JS.toLowerCase (EventType.name ev) ++ "." |}.

(** The [for] loop from offset [i] on, with [n] iterations left and [k]
    random draws made so far; the result lists the pushed objects in
    push order. *)
Fixpoint muhuratLoop
    (birthData : BirthData.t) (eventType : string) (startDate : Z)
    (n : nat) (i : Z) (k : nat) : option (list Muhurat.t) :=
  match n with
  | O => Some []
  | S n' =>
      let date := JSDate.addDays startDate i in
      match calculateMuhuratScore LocalTZA Date_parse date eventType birthData,
            lookupEvent EVENT_TYPES eventType with
      | Some score, Some ev =>
          if 60 <=? score then
            option_map (cons (makeMuhurat ev eventType date i k score))
                       (muhuratLoop birthData eventType startDate n' (i + 1) (S k))
          else muhuratLoop birthData eventType startDate n' (i + 1) k
      | _, _ => None
      end
  end.

(** [startDate] is the time value of [new Date()], the moment of the
    call. *)
Definition generateOptimizedMuhurats
    (birthData : BirthData.t) (eventType : string) (startDate : Z)
    : option (list Muhurat.t) :=
  option_map
    (fun muhurats =>
       JS.slice0 20
         (JS.sort (fun a b => Muhurat.score b - Muhurat.score a) muhurats))
    (muhuratLoop birthData eventType startDate 90 0 0).

End Ranker.

(* ===================================================================== *)
(** ** Numbers with a fractional part *)
(* ===================================================================== *)

Module JSNum.
Local Open Scope Q_scope.

(** [a % b]: the quotient is truncated towards zero. *)
Definition fmod (a b : Q) : Q :=
  let q := a / b in
  a - b * inject_Z (Z.quot (Qnum q) (Zpos (Qden q))).

(** [x.toFixed(2)] for [x >= 0]: the nearest multiple of 1/100, the
    larger one on a tie. *)
Definition toFixed2 (x : Q) : string :=
  let n := Qfloor (x * 100 + (1 # 2)) in
  (JS.toString (n / 100) ++ "." ++ JS.padStart2 (JS.toString (n mod 100)))%string.

(** The outcome of a call that may throw. *)
Inductive result (A : Type) : Type :=
| Ok (a : A)
| Throw (msg : string).
Arguments Ok {A} a.
Arguments Throw {A} msg.

Fixpoint mapM {A B : Type} (f : A -> result B) (l : list A) : result (list B) :=
  match l with
  | [] => Ok []
  | x :: rest =>
      match f x with
      | Throw e => Throw e
      | Ok y =>
          match mapM f rest with
          | Throw e => Throw e
          | Ok ys => Ok (y :: ys)
          end
      end
  end.
End JSNum.

(* ===================================================================== *)
(** ** The [sweph] binding *)
(* ===================================================================== *)

Module SE_CONSTANTS.
Definition SE_JUL_CAL : Z := 0.
Definition SE_GREG_CAL : Z := 1.
Definition SE_SUN : Z := 0.
Definition SE_MOON : Z := 1.
Definition SE_MERCURY : Z := 2.
Definition SE_VENUS : Z := 3.
Definition SE_MARS : Z := 4.
Definition SE_JUPITER : Z := 5.
Definition SE_SATURN : Z := 6.
Definition SE_MEAN_NODE : Z := 10.
Definition SE_FLG_SWIEPH : Z := 2.
Definition SE_CALC_RISE : Z := 1.
Definition SE_CALC_SET : Z := 2.
End SE_CONSTANTS.

Module Sweph.
Import JSNum.

(** The object returned by [sweph.revjul]. *)
Record RevJul : Type := mkRevJul { year : Z; month : Z; day : Z; hour : Q }.

(** The observer set by [sweph.set_topo], when there is one. *)
Definition Topo : Type := option (Q * Q * Q).

(** The library functions the sources call.  [calc_ut topo jd body flag]
    is [result.data[0]], the longitude, or the exception thrown. *)
Record Api : Type := mkApi {
  julday : Z -> Z -> Z -> Q -> Z -> Q;
  revjul : Q -> Z -> RevJul;
  calc_ut : Topo -> Q -> Z -> Z -> result Q
}.
End Sweph.

(* ===================================================================== *)
(** ** Calendrical derivation and the daylight partition *)
(* ===================================================================== *)

Module Calc.
Import JSNum.
Local Open Scope Q_scope.

Record PlanetaryPosition : Type := mkPosition {
  planet : string;
  longitude : Q;
  zodiacSign : option string;
  degreesInSign : string;
  nakshatra : option string;
  nakshatra_num : Z
}.

Record Tithi : Type := mkTithi { tithi : Z; tithiName : option string; paksha : string }.

Record Yoga : Type := mkYoga { yoga : Z; yogaName : option string }.

Record Muhurta : Type := mkMuhurta {
  number : Z;
  name : option string;
  startTime : string;
  endTime : string;
  quality : option string;
  m_tithi : string;
  m_yoga : option string;
  m_nakshatra : option string
}.

Record MuhurtaCalculationResult : Type := mkResult {
  success : bool;
  date : option string;
  sunrise : option Sweph.RevJul;
  sunset : option Sweph.RevJul;
  dayLength : option string;
  muhurtas : option (list Muhurta);
  message : option string
}.

Definition planets : list (Z * string) :=
  [ (SE_CONSTANTS.SE_SUN, "Sun"); (SE_CONSTANTS.SE_MOON, "Moon");
    (SE_CONSTANTS.SE_MERCURY, "Mercury"); (SE_CONSTANTS.SE_VENUS, "Venus");
    (SE_CONSTANTS.SE_MARS, "Mars"); (SE_CONSTANTS.SE_JUPITER, "Jupiter");
    (SE_CONSTANTS.SE_SATURN, "Saturn"); (SE_CONSTANTS.SE_MEAN_NODE, "Rahu") ]%string.

Definition nakshtraNames : list string := NAKSHATRAS.

Definition zodiacNames : list string :=
  [ "Aries"; "Taurus"; "Gemini"; "Cancer"; "Leo"; "Virgo";
    "Libra"; "Scorpio"; "Sagittarius"; "Capricorn"; "Aquarius"; "Pisces" ]%string.

(** [Math.floor(longitude * 27 / 360)] *)
Definition nakshatraIndex (longitude : Q) : Z := Qfloor (longitude * 27 / 360).

(** The body of the [planets.map] callback, given the longitude read
    from [result.data[0]]. *)
Definition position (planetName : string) (longitude : Q) : PlanetaryPosition :=
  let zodiacSign := Qfloor (longitude / 30) in
  let degreesInSign := fmod longitude 30 in
  let nakshatra := nakshatraIndex longitude in
  {| planet := planetName;
     longitude := longitude;
     zodiacSign := JS.index zodiacNames zodiacSign;
     degreesInSign := toFixed2 degreesInSign;
     nakshatra := JS.index nakshtraNames nakshatra;
     nakshatra_num := (nakshatra + 1)%Z |}.

(** The [try] block of [calculatePlanetaryPositions]. *)
Definition positionsTry (sw : Sweph.Api) (topo : Sweph.Topo)
    (year month day : Z) (hour minute second : Q) : result (list PlanetaryPosition) :=
  let julianDay :=
    Sweph.julday sw year month day (hour + minute / 60 + second / 3600)
                 SE_CONSTANTS.SE_GREG_CAL in
  mapM (fun p : Z * string =>
          match Sweph.calc_ut sw topo julianDay (fst p) SE_CONSTANTS.SE_FLG_SWIEPH with
          | Ok lon => Ok (position (snd p) lon)
          | Throw e => Throw e
          end)
       planets.

(** The 15 traditional names. *)
Definition muhurtaNames : list string :=
  [ "Rudra"; "Ahi"; "Mitra"; "Pitri"; "Vasu";
    "Vara"; "Vishvedeva"; "Vidhi"; "Satamukhi"; "Puruhuta";
    "Vahini"; "Naktanakara"; "Varuna"; "Aryaman"; "Bhaga" ]%string.

Definition qualities : list string := ["Inauspicious"; "Neutral"; "Auspicious"]%string.

(** [startTime] and [endTime] of iteration [i] of the muhurta loop. *)
Definition muhurtaSpan (sunriseJD muhurtaDuration : Q) (i : Z) : Q * Q :=
  (sunriseJD + (inject_Z i * muhurtaDuration) / 24,
   sunriseJD + (inject_Z (i + 1) * muhurtaDuration) / 24).

(** The values of [i] taken by [for (let i = 0; i < 15; i++)]. *)
Definition muhurtaOrdinals : list Z := map Z.of_nat (seq 0 15).


Definition formatTime (date : Sweph.RevJul) : string :=
  let hour := Qfloor (Sweph.hour date) in
  let minute := Qfloor ((Sweph.hour date - inject_Z hour) * 60) in
  (JS.padStart2 (JS.toString hour) ++ ":" ++ JS.padStart2 (JS.toString minute))%string.

Definition find (name : string) (positions : list PlanetaryPosition)
    : option PlanetaryPosition :=
  List.find (fun p => String.eqb (planet p) name) positions.

Section Muhurta.
Variable sw : Sweph.Api.
(** [random k] is the value of the [k]-th call of [Math.random()]. *)
Variable random : nat -> Q.
(** The two copies of the code differ in these three points. *)
Variable positionsAt : Z -> Z -> Z -> Q -> Q -> Q -> result (list PlanetaryPosition).
Variable calculateTithi : Q -> Q -> Tithi.
Variable calculateYoga : Q -> Q -> Yoga.

(** One iteration of the loop. *)
Definition muhurtaStep (sunriseJD muhurtaDuration : Q) (i : Z) : result Muhurta :=
  let (startTime, endTime) := muhurtaSpan sunriseJD muhurtaDuration i in
  let startDate := Sweph.revjul sw startTime SE_CONSTANTS.SE_GREG_CAL in
  let endDate := Sweph.revjul sw endTime SE_CONSTANTS.SE_GREG_CAL in
  let midTime := (startTime + endTime) / 2 in
  let midDate := Sweph.revjul sw midTime SE_CONSTANTS.SE_GREG_CAL in
  match positionsAt (Sweph.year midDate) (Sweph.month midDate) (Sweph.day midDate)
          (Sweph.hour midDate)
          (inject_Z (Qfloor ((Sweph.hour midDate
                              - inject_Z (Qfloor (Sweph.hour midDate))) * 60)))
          0 with
  | Throw e => Throw e
  | Ok positions =>
      let sun := find "Sun" positions in
      let moon := find "Moon" positions in
      let ty :=
        match sun, moon with
        | Some s, Some m =>
            Some (calculateTithi (longitude s) (longitude m),
                  calculateYoga (longitude s) (longitude m))
        | _, _ => None
        end in
      let qualityIndex := Qfloor (random (Z.to_nat i) * 3) in
      Ok {| number := (i + 1)%Z;
            name := JS.index muhurtaNames i;
            startTime := formatTime startDate;
            endTime := formatTime endDate;
            quality := JS.index qualities qualityIndex;
            m_tithi :=
              match ty with
              | Some (t, _) =>
                  (JS.show (tithiName t) ++ " (" ++ paksha t ++ ")")%string
              | None => "Unknown"%string
              end;
            m_yoga :=
              match ty with
              | Some (_, y) => yogaName y
              | None => Some "Unknown"%string
              end;
            m_nakshatra :=
              match moon with
              | Some m => nakshatra m
              | None => Some "Unknown"%string
              end |}
  end.

(** The [try] block of [calculateMuhurta] followed by its [catch]. *)
Definition muhurtaBody (prefix : string) (year month day : Z) (latitude longitude : Q)
    : MuhurtaCalculationResult :=
  let julianDay := Sweph.julday sw year month day 0 SE_CONSTANTS.SE_GREG_CAL in
  let sunriseJD := julianDay + 6 / 24 in
  let sunsetJD := julianDay + 18 / 24 in
  let dayLength := (sunsetJD - sunriseJD) * 24 in
  let muhurtaDuration := dayLength / 15 in
  match mapM (muhurtaStep sunriseJD muhurtaDuration) muhurtaOrdinals with
  | Ok muhurtas =>
      {| success := true;
         date := Some (JS.toString year ++ "-" ++ JS.padStart2 (JS.toString month)
                       ++ "-" ++ JS.padStart2 (JS.toString day))%string;
         sunrise := Some (Sweph.revjul sw sunriseJD SE_CONSTANTS.SE_GREG_CAL);
         sunset := Some (Sweph.revjul sw sunsetJD SE_CONSTANTS.SE_GREG_CAL);
         dayLength := Some (toFixed2 dayLength);
         muhurtas := Some muhurtas;
         message := None |}
  | Throw e =>
      {| success := false; date := None; sunrise := None; sunset := None;
         dayLength := None; muhurtas := None;
         message := Some (prefix ++ e)%string |}
  end.
End Muhurta.

End Calc.

(** The proof-of-concept module [sweph-poc]. *)
Module Poc.
Import JSNum Calc.
Local Open Scope Q_scope.

(** An exception inside the [try] block is logged and [[]] returned.
    [topo] is the observer last set in the library. *)
Definition calculatePlanetaryPositions (sw : Sweph.Api) (topo : Sweph.Topo)
    (year month day : Z) (hour minute second : Q) : list PlanetaryPosition :=
  match positionsTry sw topo year month day hour minute second with
  | Ok positions => positions
  | Throw _ => []
  end.

Definition tithiNames : list string :=
  [ "Pratipada"; "Dwitiya"; "Tritiya"; "Chaturthi"; "Panchami";
    "Shashthi"; "Saptami"; "Ashtami"; "Navami"; "Dashami";
    "Ekadashi"; "Dwadashi"; "Trayodashi"; "Chaturdashi"; "Purnima";
    "Pratipada"; "Dwitiya"; "Tritiya"; "Chaturthi"; "Panchami";
    "Shashthi"; "Saptami"; "Ashtami"; "Navami"; "Dashami";
    "Ekadashi"; "Dwadashi"; "Trayodashi"; "Chaturdashi"; "Amavasya" ]%string.

Definition calculateTithi (sunLongitude moonLongitude : Q) : Tithi :=
  let angle := moonLongitude - sunLongitude in
  let angle := if Qlt_le_dec angle 0 then angle + 360 else angle in
  let tithi := (Qfloor (angle / 12) + 1)%Z in
  let paksha := if (tithi <=? 15)%Z then "Shukla"%string else "Krishna"%string in
  {| tithi := tithi; tithiName := JS.index tithiNames (tithi - 1)%Z; paksha := paksha |}.

Definition yogaNames : list string :=
  [ "Vishkumbha"; "Preeti"; "Ayushman"; "Saubhagya"; "Shobhana";
    "Atiganda"; "Sukarma"; "Dhriti"; "Shoola"; "Ganda";
    "Vriddhi"; "Dhruva"; "Vyaghata"; "Harshana"; "Vajra";
    "Siddhi"; "Vyatipata"; "Variyan"; "Parigha"; "Shiva";
    "Siddha"; "Sadhya"; "Shubha"; "Shukla"; "Brahma";
    "Indra"; "Vaidhriti" ]%string.

Definition calculateYoga (sunLongitude moonLongitude : Q) : Yoga :=
  let sum := sunLongitude + moonLongitude in
  let sum := if Qlt_le_dec sum 360 then sum else sum - 360 in
  let yoga := (Qfloor (sum / (360 / 27)) + 1)%Z in
  {| yoga := yoga; yogaName := JS.index yogaNames (yoga - 1)%Z |}.

(** [sweph.set_topo(latitude, longitude, 0)] precedes every library call
    of the function. *)
Definition calculateMuhurta (sw : Sweph.Api) (random : nat -> Q)
    (year month day : Z) (latitude longitude : Q) : MuhurtaCalculationResult :=
  let topo := Some (latitude, longitude, 0) in
  muhurtaBody sw random
    (fun y m d h mi s => Ok (calculatePlanetaryPositions sw topo y m d h mi s))
    calculateTithi calculateYoga
    "Error: " year month day latitude longitude.
End Poc.

(** The calculator script that [sweph-service.ts] writes and spawns. *)
Module Calculator.
Import JSNum Calc.
Local Open Scope Q_scope.

Record PlanetaryCalculationResult : Type := mkPositions {
  p_success : bool;
  positions : option (list PlanetaryPosition);
  p_message : option string
}.

Definition calculatePlanetaryPositions (sw : Sweph.Api) (topo : Sweph.Topo)
    (year month day : Z) (hour minute second : Q) : PlanetaryCalculationResult :=
  match positionsTry sw topo year month day hour minute second with
  | Ok positions =>
      {| p_success := true; positions := Some positions; p_message := None |}
  | Throw e =>
      {| p_success := false; positions := None;
         p_message := Some ("Error calculating planetary positions: " ++ e)%string |}
  end.

Definition tithiNames : list string :=
  [ "Pratipada"; "Dwitiya"; "Tritiya"; "Chaturthi"; "Panchami";
    "Shashthi"; "Saptami"; "Ashtami"; "Navami"; "Dashami";
    "Ekadashi"; "Dwadashi"; "Trayodashi"; "Chaturdashi"; "Purnima/Amavasya" ]%string.

Definition calculateTithi (sunLongitude moonLongitude : Q) : Tithi :=
  let angle := moonLongitude - sunLongitude in
  let angle := if Qlt_le_dec angle 0 then angle + 360 else angle in
  let tithi := (Qfloor (angle / 12) + 1)%Z in
  let paksha := if (tithi <=? 15)%Z then "Shukla"%string else "Krishna"%string in
  let tithiWithinPaksha := if (tithi <=? 15)%Z then tithi else (tithi - 15)%Z in
  {| tithi := tithi;
     tithiName := JS.index tithiNames (tithiWithinPaksha - 1)%Z;
     paksha := paksha |}.

Definition yogaNames : list string :=
  [ "Vishkumbha"; "Priti"; "Ayushman"; "Saubhagya"; "Shobhana";
    "Atiganda"; "Sukarma"; "Dhriti"; "Shula"; "Ganda";
    "Vriddhi"; "Dhruva"; "Vyaghata"; "Harshana"; "Vajra";
    "Siddhi"; "Vyatipata"; "Variyana"; "Parigha"; "Shiva";
    "Siddha"; "Sadhya"; "Shubha"; "Shukla"; "Brahma";
    "Indra"; "Vaidhriti" ]%string.

Definition calculateYoga (sunLongitude moonLongitude : Q) : Yoga :=
  let sum := sunLongitude + moonLongitude in
  let sum := if Qlt_le_dec sum 360 then sum else sum - 360 in
  let yoga := (Qfloor (sum * 27 / 360) + 1)%Z in
  {| yoga := yoga; yogaName := JS.index yogaNames (yoga - 1)%Z |}.

(** The text of the [TypeError] raised by [undefined.find(...)]. *)
Definition findOfUndefined : string :=
  "TypeError: Cannot read properties of undefined (reading 'find')".

(** No observer is set in this copy.  When the positions call reports a
    failure its [positions] field is missing and [positions.find]
    throws. *)
Definition calculateMuhurta (sw : Sweph.Api) (random : nat -> Q)
    (year month day : Z) (latitude longitude : Q) : MuhurtaCalculationResult :=
  muhurtaBody sw random
    (fun y m d h mi s =>
       match positions (calculatePlanetaryPositions sw None y m d h mi s) with
       | Some ps => Ok ps
       | None => Throw findOfUndefined
       end)
    calculateTithi calculateYoga
    "Error calculating muhurta: " year month day latitude longitude.
End Calculator.

(* ===================================================================== *)
(** ** [SwissEphemerisService.runCalculation] *)
(* ===================================================================== *)

Module Service.
Import JSNum.

(** What the listeners registered on the child observe, in order. *)
Inductive event : Type :=
| StdoutData (data : string)
| StderrData (data : string)
| Close (code : option Z)
| Error (error : string).

(** [spawn] either throws or returns a child that emits events. *)
Inductive child : Type :=
| SpawnThrows (error : string)
| Spawned (events : list event).

Inductive promise (A : Type) : Type :=
| Pending
| Resolved (value : A)
| Rejected (reason : string).
Arguments Pending {A}.
Arguments Resolved {A} value.
Arguments Rejected {A} reason.

Section Run.
(** The parsed JSON documents and [JSON.parse]. *)
Variable Json : Type.
Variable JSON_parse : string -> result Json.

Record state : Type := mkState {
  stdoutData : string;
  stderrData : string;
  settled : promise Json
}.

(** [resolve] and [reject] only act on a pending promise. *)
Definition settle (st : state) (p : promise Json) : state :=
  match settled st with
  | Pending => {| stdoutData := stdoutData st; stderrData := stderrData st; settled := p |}
  | _ => st
  end.

(** [`${code}`] *)
Definition showCode (code : option Z) : string :=
  match code with
  | Some c => JS.toString c
  | None => "null"
  end.

Definition onClose (st : state) (code : option Z) : state :=
  match code with
  | Some 0 =>
      match JSON_parse (stdoutData st) with
      | Ok result => settle st (Resolved result)
      | Throw error =>
          settle st (Rejected ("Failed to parse calculator output: " ++ error))
      end
  | _ =>
      settle st (Rejected ("Calculator process exited with code " ++ showCode code
                           ++ ": " ++ stderrData st))
  end.

Definition handle (st : state) (e : event) : state :=
  match e with
  | StdoutData data =>
      {| stdoutData := stdoutData st ++ data; stderrData := stderrData st;
         settled := settled st |}
  | StderrData data =>
      {| stdoutData := stdoutData st; stderrData := stderrData st ++ data;
         settled := settled st |}
  | Close code => onClose st code
  | Error error =>
      settle st (Rejected ("Failed to start calculator process: " ++ error))
  end.

Definition initial : state :=
  {| stdoutData := ""; stderrData := ""; settled := Pending |}.

Definition runCalculation (c : child) : promise Json :=
  match c with
  | SpawnThrows error => Rejected ("Error running calculation: " ++ error)
  | Spawned events => settled (fold_left handle events initial)
  end.
End Run.

(** The standard output captured before the first [close] or [error]. *)
Fixpoint captured (events : list event) : string :=
  match events with
  | StdoutData data :: rest => data ++ captured rest
  | StderrData _ :: rest => captured rest
  | _ => ""
  end.

(** How the child ended: the first [close] or [error] it emitted. *)
Fixpoint ending (events : list event) : option event :=
  match events with
  | [] => None
  | (Close _ as e) :: _ => Some e
  | (Error _ as e) :: _ => Some e
  | _ :: rest => ending rest
  end.

End Service.

(* ===================================================================== *)
(** ** The scoring rule as the specification words it *)
(* ===================================================================== *)

Module ScoreSpec.

Definition clamp (lo hi x : Z) : Z :=
  if x <? lo then lo else if hi <? x then hi else x.

(** Monday +15, Wednesday +20, Thursday +10, Friday +15, others +0. *)
Definition weekdayBonus (weekday : Z) : Z :=
  match weekday with
  | 1 => 15
  | 3 => 20
  | 4 => 10
  | 5 => 15
  | _ => 0
  end.

Definition tithiBonus (favorableTithi : list Z) (tithi : Z) : Z :=
  if in_dec Z.eq_dec tithi favorableTithi then 25 else 0.

Definition nakshatraBonus (nakshatra : option string) : Z :=
  match nakshatra with
  | Some n => if in_dec string_dec n auspiciousNakshatras then 15 else 0
  | None => 0
  end.

(** Phase alignment; there is none when the birth date has no month. *)
Definition phaseBonus (candidateMonth : Z) (birthMonth : option Z) : Z :=
  match birthMonth with
  | Some bm => if (candidateMonth - bm) mod 6 =? 0 then 10 else 0
  | None => 0
  end.

Definition rawScore (favorableTithi : list Z) (tithi weekday : Z)
    (nakshatra : option string) (candidateMonth : Z) (birthMonth : option Z) : Z :=
  50 + tithiBonus favorableTithi tithi + weekdayBonus weekday
  + nakshatraBonus nakshatra + phaseBonus candidateMonth birthMonth.

End ScoreSpec.

(* ===================================================================== *)
(** ** The ranking order *)
(* ===================================================================== *)

Module RankSpec.

(** Descending by score, ties in ascending date. *)
Definition ranksBefore (a b : Muhurat.t) : Prop :=
  Muhurat.score b < Muhurat.score a
  \/ (Muhurat.score a = Muhurat.score b /\ Muhurat.date a < Muhurat.date b).

(** The day offsets [i], [i + 1], ... visited by [n] iterations. *)
Fixpoint offsets (i : Z) (n : nat) : list Z :=
  match n with
  | O => []
  | S n' => i :: offsets (i + 1) n'
  end.

(** The 90 day offsets of the horizon. *)
Definition horizon : list Z := offsets 0 90.

(** Whether the day at offset [i] reaches the minimum score of 60. *)
Definition keeps (LocalTZA : Z) (Date_parse : string -> option Z)
    (birthData : BirthData.t) (eventType : string) (startDate : Z) (i : Z) : bool :=
  match calculateMuhuratScore LocalTZA Date_parse (JSDate.addDays startDate i)
          eventType birthData with
  | Some score => 60 <=? score
  | None => false
  end.

(** The candidate built for offset [i]: its day, its score and its id. *)
Definition candidateOf (LocalTZA : Z) (Date_parse : string -> option Z)
    (birthData : BirthData.t) (eventType : string) (startDate : Z)
    (m : Muhurat.t) (i : Z) : Prop :=
  Muhurat.date m = JSDate.Day startDate + i
  /\ calculateMuhuratScore LocalTZA Date_parse (JSDate.addDays startDate i)
       eventType birthData = Some (Muhurat.score m)
  /\ Muhurat.id m = "muhurat_" ++ JS.toString i.

(** A candidate without its display time slot. *)
Definition untimed (m : Muhurat.t) : Muhurat.t :=
  {| Muhurat.id := Muhurat.id m;
     Muhurat.date := Muhurat.date m;
     Muhurat.time := None;
     Muhurat.type := Muhurat.type m;
     Muhurat.score := Muhurat.score m;
     Muhurat.nakshatra := Muhurat.nakshatra m;
     Muhurat.tithi := Muhurat.tithi m;
     Muhurat.description := Muhurat.description m;
     Muhurat.details := Muhurat.details m |}.

(** [Math.random()] returns a number in [0,1). *)
Definition unitDraws (random : nat -> Q) : Prop :=
  forall k, (0 <= random k /\ random k < 1)%Q.

Definition canonicalSlot (m : Muhurat.t) : Prop :=
  exists slot, Muhurat.time m = Some slot /\ In slot timeSlots.

End RankSpec.

(* ===================================================================== *)
(** ** The calendrical quantities as the specification words them *)
(* ===================================================================== *)

Module CalSpec.
Local Open Scope Q_scope.






End CalSpec.

(* ===================================================================== *)
(** ** Vocabulary for further properties of the ranker *)
(* ===================================================================== *)

Module RankFacts.

(** The keys of the catalog. *)
Definition eventKeys : list string := map fst EVENT_TYPES.

(** A weekday that carries a bonus: Monday, Wednesday, Thursday, Friday. *)
Definition bonusDay (weekday : Z) : bool := 10 <=? ScoreSpec.weekdayBonus weekday.

(** The sum of the four bonuses of a date. *)
Definition bonuses (LocalTZA : Z) (Date_parse : string -> option Z)
    (ev : EventType.t) (birthData : BirthData.t) (date : Z) : Z :=
  ScoreSpec.tithiBonus (EventType.auspicious ev) (calculateLunarDay date)
  + ScoreSpec.weekdayBonus (JSDate.getDay LocalTZA date)
  + ScoreSpec.nakshatraBonus (getNakshatra date)
  + ScoreSpec.phaseBonus (JSDate.getMonth LocalTZA date)
      (birthMonthOf LocalTZA Date_parse birthData).

End RankFacts.

(* ===================================================================== *)
(** ** Vocabulary for further properties of the calculation layer *)
(* ===================================================================== *)

Module CalFacts.



(** The names of the roster, in order. *)
Definition rosterNames : list string := map snd Calc.planets.

(** A provider that gives no Sun longitude, whatever the instant. *)
Definition sunUnavailable (sw : Sweph.Api) : Prop :=
  forall topo jd,
    exists e, Sweph.calc_ut sw topo jd SE_CONSTANTS.SE_SUN SE_CONSTANTS.SE_FLG_SWIEPH
              = JSNum.Throw e.

(** A provider that gives a longitude for every body at every instant. *)
Definition alwaysAnswers (sw : Sweph.Api) : Prop :=
  forall topo jd body flag, exists lon, Sweph.calc_ut sw topo jd body flag = JSNum.Ok lon.

(** Stand-in providers, to run the code on concrete inputs: one that
    answers with a fixed pair of longitudes and one that always throws. *)
Definition sampleJulday (year month day : Z) (hour : Q) (gregflag : Z) : Q :=
  (inject_Z (367 * year + 31 * month + day) + hour / 24)%Q.

Definition sampleRevjul (jd : Q) (gregflag : Z) : Sweph.RevJul :=
  {| Sweph.year := 2025; Sweph.month := 6; Sweph.day := 21;
     Sweph.hour := ((jd - inject_Z (Qfloor jd)) * 24)%Q |}.

Definition steadyProvider : Sweph.Api :=
  {| Sweph.julday := sampleJulday;
     Sweph.revjul := sampleRevjul;
     Sweph.calc_ut := fun _ _ body _ =>
                        JSNum.Ok (if body =? SE_CONSTANTS.SE_SUN then 280 else 10)%Q |}.

Definition brokenProvider : Sweph.Api :=
  {| Sweph.julday := sampleJulday;
     Sweph.revjul := sampleRevjul;
     Sweph.calc_ut := fun _ _ _ _ => JSNum.Throw "ephemeris file not found" |}.

End CalFacts.

(* ===================================================================== *)
(** ** [SwissEphemerisService]: the public methods *)
(* ===================================================================== *)

Module ServiceApi.
Import JSNum.

(** The second and third argument of [runCalculation]. *)
Inductive arguments : Type :=
| NoArguments
| PositionArguments (year month day : Z) (hour minute second : Q)
| MuhurtaArguments (year month day : Z) (latitude longitude : Q).

Record request : Type := mkRequest { command : string; args : arguments }.

(** What [initialize] finds when it looks for the calculator script: the
    file is there, or it is missing and [createCalculatorScript] writes it,
    or writing it throws. *)
Inductive scriptCheck : Type :=
| ScriptPresent
| ScriptCreated
| CreateThrows (error : string).

(** The surroundings of one service object.  [spawnFor n r] is the child
    that [spawn] yields for request [r] when [n] children were spawned
    before; [scriptAt n] is the state of the script file at that point. *)
Record world : Type := mkWorld {
  spawnFor : nat -> request -> Service.child;
  scriptAt : nat -> scriptCheck
}.

(** The object: its [initialized] field, and the requests it has spawned
    a child for, oldest first. *)
Record service : Type := mkService { initialized : bool; spawned : list request }.

(** What a public method resolves with: the document parsed from the
    child, or an object [{ success: false, message }] built in its
    [catch]. *)
Inductive reply (Json : Type) : Type :=
| Document (doc : Json)
| Failed (message : string).
Arguments Document {Json} doc.
Arguments Failed {Json} message.

Section Methods.
Variable Json : Type.
Variable JSON_parse : string -> result Json.
(** Whether [testResult && testResult.success] is truthy. *)
Variable successOf : Json -> bool.
Variable w : world.

(** [await this.runCalculation(command, args)], with the spawn recorded. *)
Definition run (s : service) (r : request) : Service.promise Json * service :=
  (Service.runCalculation Json JSON_parse (spawnFor w (List.length (spawned s)) r),
   {| initialized := initialized s; spawned := (spawned s ++ [r])%list |}).

Definition initialize (s : service) : Service.promise bool * service :=
  match scriptAt w (List.length (spawned s)) with
  | CreateThrows _ => (Service.Resolved false, s)
  | _ =>
      let (testResult, s1) := run s {| command := "test"; args := NoArguments |} in
      match testResult with
      | Service.Pending => (Service.Pending, s1)
      | Service.Resolved doc =>
          if successOf doc
          then (Service.Resolved true, {| initialized := true; spawned := spawned s1 |})
          else (Service.Resolved false, s1)
      | Service.Rejected _ => (Service.Resolved false, s1)
      end
  end.

Definition calculatePlanetaryPositions (s : service)
    (year month day : Z) (hour minute second : Q)
    : Service.promise (reply Json) * service :=
  let (init, s1) :=
    if initialized s then (Service.Resolved true, s) else initialize s in
  match init with
  | Service.Pending => (Service.Pending, s1)
  | Service.Rejected reason =>
      (Service.Resolved (Failed ("Error calculating planetary positions: " ++ reason)), s1)
  | Service.Resolved _ =>
      let command := "planetaryPositions" in
      let args := PositionArguments year month day hour minute second in
      let (result, s2) := run s1 {| command := command; args := args |} in
      match result with
      | Service.Pending => (Service.Pending, s2)
      | Service.Resolved doc => (Service.Resolved (Document doc), s2)
      | Service.Rejected reason =>
          (Service.Resolved (Failed ("Error calculating planetary positions: " ++ reason)),
           s2)
      end
  end.

Definition calculateMuhurta (s : service)
    (year month day : Z) (latitude longitude : Q)
    : Service.promise (reply Json) * service :=
  let (init, s1) :=
    if initialized s then (Service.Resolved true, s) else initialize s in
  match init with
  | Service.Pending => (Service.Pending, s1)
  | Service.Rejected reason =>
      (Service.Resolved (Failed ("Error calculating muhurta: " ++ reason)), s1)
  | Service.Resolved _ =>
      let command := "muhurta" in
      let args := MuhurtaArguments year month day latitude longitude in
      let (result, s2) := run s1 {| command := command; args := args |} in
      match result with
      | Service.Pending => (Service.Pending, s2)
      | Service.Resolved doc => (Service.Resolved (Document doc), s2)
      | Service.Rejected reason =>
          (Service.Resolved (Failed ("Error calculating muhurta: " ++ reason)), s2)
      end
  end.

(** A caller that awaits [calculateMuhurta] for each date and place in
    turn; it goes no further than a call that never settles. *)
Fixpoint muhurtaSession (calls : list (Z * Z * Z * Q * Q)) (s : service) : service :=
  match calls with
  | [] => s
  | (year, month, day, latitude, longitude) :: rest =>
      let (p, s') := calculateMuhurta s year month day latitude longitude in
      match p with
      | Service.Pending => s'
      | _ => muhurtaSession rest s'
      end
  end.

End Methods.

(** The request spawned for one call of [calculateMuhurta]. *)
Definition muhurtaRequest (c : Z * Z * Z * Q * Q) : request :=
  let '(year, month, day, latitude, longitude) := c in
  {| command := "muhurta"; args := MuhurtaArguments year month day latitude longitude |}.

End ServiceApi.

Module ServiceFacts.

(** The standard error captured before the first [close] or [error]. *)
Fixpoint capturedErr (events : list Service.event) : string :=
  match events with
  | Service.StderrData data :: rest => data ++ capturedErr rest
  | Service.StdoutData _ :: rest => capturedErr rest
  | _ => ""
  end.

(** A [close] or an [error] event. *)
Definition terminal (e : Service.event) : bool :=
  match e with
  | Service.Close _ | Service.Error _ => true
  | _ => false
  end.

End ServiceFacts.

(* ===================================================================== *)
(** ** The [Date] model on known dates *)
(* ===================================================================== *)

(** 2024-01-01, the base date of the simplified ephemeris, was a Monday. *)
Example base_date_is_a_monday :
  JSDate.isoDateParse "2024-01-01" = Some baseDate /\ JSDate.WeekDay baseDate = 1.
Proof. split; reflexivity. Qed.

Example months_of_known_days :
  map (fun '(y, m, d) => JSDate.MonthFromDay (JSDate.dayFromCivil y m d))
      [(2024, 2, 29); (2024, 3, 1); (2000, 12, 31); (1970, 1, 1); (1969, 12, 31);
       (1900, 2, 28); (1900, 3, 1)]
  = [1; 2; 11; 0; 11; 1; 2].
Proof. reflexivity. Qed.

(** 2024-01-31 is 30 days after the base date: tithi 1, Rohini, a
    Wednesday in January. *)
Example quantities_on_2024_01_31 :
  JSDate.isoDateParse "2024-01-31" = Some 1706659200000
  /\ calculateLunarDay 1706659200000 = 1
  /\ getNakshatra 1706659200000 = Some "Rohini"
  /\ JSDate.getDay 0 1706659200000 = 3
  /\ JSDate.getMonth 0 1706659200000 = 0.
Proof. repeat split. Qed.

(** Before the base date the remainders are negative: the tithi is not
    positive and there is no nakshatra. *)
Example quantities_before_base_date :
  JSDate.isoDateParse "2023-12-25" = Some 1703462400000
  /\ calculateLunarDay 1703462400000 = -6
  /\ getNakshatra 1703462400000 = None.
Proof. repeat split. Qed.

(* ===================================================================== *)
(** ** Properties of the scoring function *)
(* ===================================================================== *)

Lemma includes_In (l : list Z) (x : Z) : JS.includes l x = true <-> In x l.
Proof.
  unfold JS.includes. rewrite existsb_exists. split.
  - intros [y [Hy Heq]]. apply Z.eqb_eq in Heq. now subst.
  - intros H. exists x. split; [assumption | apply Z.eqb_refl].
Qed.

Lemma includesStr_In (l : list string) (x : string) :
  JS.includesStr l (Some x) = true <-> In x l.
Proof.
  simpl. rewrite existsb_exists. split.
  - intros [y [Hy Heq]]. apply String.eqb_eq in Heq. now subst.
  - intros H. exists x. split; [assumption | apply String.eqb_refl].
Qed.

Lemma tithi_step (l : list Z) (tithi s : Z) :
  (if JS.includes l tithi then s + 25 else s) = s + ScoreSpec.tithiBonus l tithi.
Proof.
  unfold ScoreSpec.tithiBonus.
  destruct (JS.includes l tithi) eqn:E; destruct (in_dec Z.eq_dec tithi l) as [Hin | Hnin];
    try lia.
  - apply includes_In in E. contradiction.
  - apply includes_In in Hin. congruence.
Qed.

Lemma weekday_step (d : Z) :
  JS.orZero (JS.prop auspiciousDays d) = ScoreSpec.weekdayBonus d.
Proof.
  unfold auspiciousDays, JS.prop.
  destruct (Z.eqb_spec d 1) as [-> | H1]; [reflexivity |].
  destruct (Z.eqb_spec d 3) as [-> | H3]; [reflexivity |].
  destruct (Z.eqb_spec d 4) as [-> | H4]; [reflexivity |].
  destruct (Z.eqb_spec d 5) as [-> | H5]; [reflexivity |].
  destruct d as [| p | p]; try reflexivity.
  do 3 (try (destruct p as [p | p |]); try reflexivity; try congruence).
Qed.

Lemma nakshatra_step (n : option string) (s : Z) :
  (if JS.includesStr auspiciousNakshatras n then s + 15 else s)
  = s + ScoreSpec.nakshatraBonus n.
Proof.
  destruct n as [x |]; [| simpl; lia].
  unfold ScoreSpec.nakshatraBonus.
  destruct (JS.includesStr auspiciousNakshatras (Some x)) eqn:E;
    destruct (in_dec string_dec x auspiciousNakshatras) as [Hin | Hnin]; try lia.
  - apply includesStr_In in E. contradiction.
  - apply includesStr_In in Hin. congruence.
Qed.

(** The truncating remainder and the floored one vanish together. *)
Lemma rem_zero_iff_mod_zero (a : Z) : (JS.rem a 6 =? 0) = (a mod 6 =? 0).
Proof.
  unfold JS.rem.
  destruct (Z.eqb_spec (Z.rem a 6) 0) as [Hr | Hr];
    destruct (Z.eqb_spec (a mod 6) 0) as [Hm | Hm]; try reflexivity; exfalso.
  - apply Hm. apply Z.rem_divide in Hr; [| lia]. apply Z.mod_divide; [lia | assumption].
  - apply Hr. apply Z.mod_divide in Hm; [| lia]. apply Z.rem_divide; [lia | assumption].
Qed.

Lemma phase_step (cm : Z) (bm : option Z) (s : Z) :
  match bm with
  | Some b => if JS.rem (cm - b) 6 =? 0 then s + 10 else s
  | None => s
  end = s + ScoreSpec.phaseBonus cm bm.
Proof.
  destruct bm as [b |]; simpl; [| lia].
  rewrite rem_zero_iff_mod_zero. destruct ((cm - b) mod 6 =? 0); lia.
Qed.

Lemma min_max_clamp (s : Z) : Z.min 100 (Z.max 10 s) = ScoreSpec.clamp 10 100 s.
Proof.
  unfold ScoreSpec.clamp.
  destruct (Z.ltb_spec s 10); destruct (Z.ltb_spec 100 s); lia.
Qed.

(** The score is the clamped sum of the base and the four bonuses, for
    every event type of the catalog. *)
Lemma score_unfold LocalTZA Date_parse date eventType ev birthData :
  lookupEvent EVENT_TYPES eventType = Some ev ->
  calculateMuhuratScore LocalTZA Date_parse date eventType birthData
  = Some (ScoreSpec.clamp 10 100
            (ScoreSpec.rawScore (EventType.auspicious ev) (calculateLunarDay date)
               (JSDate.getDay LocalTZA date) (getNakshatra date)
               (JSDate.getMonth LocalTZA date)
               (birthMonthOf LocalTZA Date_parse birthData))).
Proof.
  intros Hev. unfold calculateMuhuratScore. rewrite Hev.
  rewrite tithi_step, weekday_step, nakshatra_step, phase_step, min_max_clamp.
  reflexivity.
Qed.

Lemma rawScore_bounds l t w n cm bm :
  50 <= ScoreSpec.rawScore l t w n cm bm <= 120.
Proof.
  unfold ScoreSpec.rawScore, ScoreSpec.tithiBonus, ScoreSpec.nakshatraBonus,
    ScoreSpec.phaseBonus.
  assert (Hw : 0 <= ScoreSpec.weekdayBonus w <= 20).
  { rewrite <- weekday_step. unfold auspiciousDays, JS.prop.
    repeat match goal with |- context [if ?b then _ else _] => destruct b end;
      simpl; lia. }
  destruct (in_dec Z.eq_dec t l); destruct n as [x |];
    try destruct (in_dec string_dec x auspiciousNakshatras);
    destruct bm as [b |]; try destruct ((cm - b) mod 6 =? 0); lia.
Qed.





Section StableSort.
Context {A : Type} (key ord : A -> Z).

Let cmp (a b : A) : Z := key b - key a.
Let before (a b : A) : Prop := key b < key a \/ (key a = key b /\ ord a < ord b).

Lemma insert_In (x y : A) (l : list A) :
  In y (JS.insert cmp x l) -> y = x \/ In y l.
Proof.
  induction l as [| z l IH]; simpl.
  - intros [H | []]. left. now symmetry.
  - destruct (cmp x z <=? 0); simpl.
    + intros [H | H]; [left; now symmetry | right; assumption].
    + intros [H | H]; [right; left; assumption |].
      destruct (IH H) as [H' | H']; [left | right; right]; assumption.
Qed.

Lemma insert_Permutation (x : A) (l : list A) :
  Permutation (x :: l) (JS.insert cmp x l).
Proof.
  induction l as [| z l IH]; simpl.
  - apply Permutation_refl.
  - destruct (cmp x z <=? 0).
    + apply Permutation_refl.
    + eapply Permutation_trans; [apply perm_swap |].
      apply perm_skip. exact IH.
Qed.

Lemma sort_Permutation (l : list A) : Permutation l (JS.sort cmp l).
Proof.
  induction l as [| x l IH]; simpl.
  - apply Permutation_refl.
  - eapply Permutation_trans; [apply perm_skip; exact IH |].
    apply insert_Permutation.
Qed.

(** Inserting an element that is older than all of a ranked list keeps
    the list ranked. *)
Lemma insert_ranked (x : A) (l : list A) :
  StronglySorted before l ->
  Forall (fun y => ord x < ord y) l ->
  StronglySorted before (JS.insert cmp x l).
Proof.
  induction l as [| z l IH]; intros Hs Hord; simpl.
  - constructor; constructor.
  - inversion Hs as [| ? ? Hs' Hz]; subst.
    inversion Hord as [| ? ? Hxz Hord']; subst.
    destruct (Z.leb_spec (cmp x z) 0) as [Hc | Hc]; unfold cmp in Hc.
    + constructor; [exact Hs |].
      constructor.
      * unfold before. lia.
      * rewrite Forall_forall in *. intros w Hw.
        specialize (Hz w Hw). specialize (Hord' w Hw). unfold before in *. lia.
    + constructor.
      * apply IH; assumption.
      * rewrite Forall_forall in *. intros w Hw.
        apply insert_In in Hw. destruct Hw as [-> | Hw].
        -- unfold before. lia.
        -- apply Hz. exact Hw.
Qed.

(** Sorting a list that is in ascending [ord] order ranks it: descending
    by [key], ties in ascending [ord]. *)
Lemma sort_ranked (l : list A) :
  StronglySorted (fun a b => ord a < ord b) l ->
  StronglySorted before (JS.sort cmp l).
Proof.
  induction l as [| x l IH]; intros Hs; simpl.
  - constructor.
  - inversion Hs as [| ? ? Hs' Hx]; subst.
    apply insert_ranked; [apply IH; exact Hs' |].
    rewrite Forall_forall in *. intros y Hy. apply Hx.
    eapply Permutation_in; [apply Permutation_sym, sort_Permutation | exact Hy].
Qed.

End StableSort.

Lemma insert_map {A : Type} (cmp : A -> A -> Z) (f : A -> A) (x : A) (l : list A) :
  (forall a b, cmp (f a) (f b) = cmp a b) ->
  JS.insert cmp (f x) (map f l) = map f (JS.insert cmp x l).
Proof.
  intros Hf. induction l as [| y l IH]; simpl; [reflexivity |].
  rewrite Hf. destruct (cmp x y <=? 0); simpl; [reflexivity |].
  now rewrite IH.
Qed.

Lemma sort_map {A : Type} (cmp : A -> A -> Z) (f : A -> A) (l : list A) :
  (forall a b, cmp (f a) (f b) = cmp a b) ->
  JS.sort cmp (map f l) = map f (JS.sort cmp l).
Proof.
  intros Hf. induction l as [| x l IH]; simpl; [reflexivity |].
  rewrite IH. now apply insert_map.
Qed.

(* ===================================================================== *)
(** ** Properties of the horizon ranker *)
(* ===================================================================== *)

Lemma Day_addDays (LocalTZA startDate i : Z) :
  JSDate.Day (JSDate.addDays startDate i) = JSDate.Day startDate + i.
Proof.
  unfold JSDate.Day, JSDate.addDays.
  apply Z.div_add. unfold JSDate.msPerDay. lia.
Qed.

Lemma offsets_bounds (i : Z) (n : nat) (j : Z) :
  In j (RankSpec.offsets i n) -> i <= j < i + Z.of_nat n.
Proof.
  revert i. induction n as [| n IH]; intros i; simpl.
  - contradiction.
  - intros [<- | H]; [lia |]. apply IH in H. lia.
Qed.

Lemma offsets_ascending (i : Z) (n : nat) : StronglySorted Z.lt (RankSpec.offsets i n).
Proof.
  revert i. induction n as [| n IH]; intros i; simpl; constructor.
  - apply IH.
  - rewrite Forall_forall. intros j Hj. apply offsets_bounds in Hj. lia.
Qed.

Lemma filter_ascending (f : Z -> bool) (l : list Z) :
  StronglySorted Z.lt l -> StronglySorted Z.lt (filter f l).
Proof.
  induction 1 as [| x l Hs IH Hx]; simpl; [constructor |].
  destruct (f x); [| exact IH].
  constructor; [exact IH |].
  rewrite Forall_forall in *. intros y Hy. apply filter_In in Hy. apply Hx, Hy.
Qed.

Section RankerFacts.
Variable LocalTZA : Z.
Variable Date_parse : string -> option Z.
Variable birthData : BirthData.t.
Variable eventType : string.
Variable ev : EventType.t.
Variable startDate : Z.
Hypothesis catalogued : lookupEvent EVENT_TYPES eventType = Some ev.

Let candidate := RankSpec.candidateOf LocalTZA Date_parse birthData eventType startDate.
Let keep := RankSpec.keeps LocalTZA Date_parse birthData eventType startDate.

(** The loop pushes one candidate for each kept offset, in offset order. *)
Lemma muhuratLoop_kept (random : nat -> Q) (n : nat) :
  forall i k,
  exists kept,
    muhuratLoop LocalTZA Date_parse random birthData eventType startDate n i k = Some kept
    /\ Forall2 candidate kept (filter keep (RankSpec.offsets i n)).
Proof.
  induction n as [| n IH]; intros i k.
  - exists []. split; [reflexivity | constructor].
  - cbn [muhuratLoop RankSpec.offsets filter].
    unfold keep at 1, RankSpec.keeps.
    rewrite catalogued.
    rewrite (score_unfold LocalTZA Date_parse _ eventType ev birthData catalogued).
    match goal with |- context [60 <=? ?s] => set (score := s) end.
    destruct (60 <=? score) eqn:E.
    + destruct (IH (i + 1) (S k)) as [kept [Hk Hf]].
      exists (makeMuhurat random ev eventType (JSDate.addDays startDate i) i k score :: kept).
      rewrite Hk. split; [reflexivity |].
      constructor; [| exact Hf].
      unfold candidate, RankSpec.candidateOf. simpl.
      split; [apply (Day_addDays LocalTZA) |].
      split; [| reflexivity].
      apply score_unfold. exact catalogued.
    + destruct (IH (i + 1) k) as [kept [Hk Hf]].
      exists kept. split; assumption.
Qed.

Lemma candidates_ascending (kept : list Muhurat.t) (js : list Z) :
  Forall2 candidate kept js ->
  StronglySorted Z.lt js ->
  StronglySorted (fun a b => Muhurat.date a < Muhurat.date b) kept.
Proof.
  induction 1 as [| m j kept js Hm Hrest IH]; intros Hs; [constructor |].
  inversion Hs as [| ? ? Hs' Hj]; subst.
  constructor; [apply IH; exact Hs' |].
  clear IH Hs Hs'. destruct Hm as [Hdate _].
  induction Hrest as [| m' j' kept js Hm' Hrest IH]; constructor.
  - inversion Hj; subst. destruct Hm' as [Hdate' _]. lia.
  - apply IH. inversion Hj; assumption.
Qed.

(** Every pushed candidate carries one of the four slots when
    [Math.random()] stays in [0,1). *)
Lemma muhuratLoop_slots (random : nat -> Q) (n : nat) :
  RankSpec.unitDraws random ->
  forall i k kept,
    muhuratLoop LocalTZA Date_parse random birthData eventType startDate n i k = Some kept ->
    Forall RankSpec.canonicalSlot kept.
Proof.
  intros Hdraws. induction n as [| n IH]; intros i k kept; cbn [muhuratLoop].
  - intros [= <-]. constructor.
  - rewrite catalogued.
    destruct (calculateMuhuratScore _ _ _ _ _) as [score |]; [| discriminate].
    destruct (60 <=? score); [| apply IH].
    destruct (muhuratLoop _ _ _ _ _ _ n (i + 1) (S k)) as [rest |] eqn:E; [| discriminate].
    intros [= <-]. constructor; [| eapply IH; exact E].
    unfold RankSpec.canonicalSlot, makeMuhurat. cbn [Muhurat.time].
    destruct (Hdraws k) as [H0 H1].
    set (x := (random k * inject_Z (Z.of_nat (List.length timeSlots)))%Q).
    assert (Hx : (0 <= x /\ x < 4)%Q).
    { unfold x. simpl List.length. simpl Z.of_nat. split.
      - apply Qmult_le_0_compat; [exact H0 | discriminate].
      - setoid_replace (4 : Q) with (1 * inject_Z 4)%Q by reflexivity.
        apply Qmult_lt_compat_r; [reflexivity | exact H1]. }
    destruct Hx as [Hx0 Hx4].
    assert (Hlo : 0 <= Qfloor x).
    { change 0 with (Qfloor (inject_Z 0)) at 1. apply Qfloor_resp_le. exact Hx0. }
    assert (Hhi : Qfloor x < 4).
    { rewrite Zlt_Qlt. eapply Qle_lt_trans; [apply Qfloor_le | exact Hx4]. }
    assert (Hcases : Qfloor x = 0 \/ Qfloor x = 1 \/ Qfloor x = 2 \/ Qfloor x = 3) by lia.
    destruct Hcases as [-> | [-> | [-> | ->]]]; eexists; (split; [reflexivity |]);
      simpl; tauto.
Qed.

(** Two runs differ at most in the time slots, whatever the draws. *)
Lemma muhuratLoop_untimed (r1 r2 : nat -> Q) (n : nat) :
  forall i k1 k2,
    option_map (map RankSpec.untimed)
      (muhuratLoop LocalTZA Date_parse r1 birthData eventType startDate n i k1)
    = option_map (map RankSpec.untimed)
        (muhuratLoop LocalTZA Date_parse r2 birthData eventType startDate n i k2).
Proof.
  induction n as [| n IH]; intros i k1 k2; cbn [muhuratLoop]; [reflexivity |].
  rewrite catalogued.
  destruct (calculateMuhuratScore _ _ _ _ _) as [score |]; [| reflexivity].
  destruct (60 <=? score); [| apply IH].
  specialize (IH (i + 1) (S k1) (S k2)).
  destruct (muhuratLoop _ _ r1 _ _ _ n (i + 1) (S k1)) as [l1 |];
    destruct (muhuratLoop _ _ r2 _ _ _ n (i + 1) (S k2)) as [l2 |];
    simpl in *; try discriminate; try reflexivity.
  injection IH as IH. rewrite IH. reflexivity.
Qed.

End RankerFacts.



Lemma In_slice0 {A : Type} (n : nat) (l : list A) (x : A) :
  In x (JS.slice0 n l) -> In x l.
Proof.
  unfold JS.slice0. intros H. rewrite <- (firstn_skipn n l).
  apply in_or_app. left. exact H.
Qed.

Lemma untimed_through_ranking (l : list Muhurat.t) :
  map RankSpec.untimed
      (JS.slice0 20 (JS.sort (fun a b => Muhurat.score b - Muhurat.score a) l))
  = JS.slice0 20 (JS.sort (fun a b => Muhurat.score b - Muhurat.score a)
                          (map RankSpec.untimed l)).
Proof.
  unfold JS.slice0. rewrite <- firstn_map. f_equal.
  symmetry. apply sort_map. intros a b. reflexivity.
Qed.

Lemma muhuratLoop_uncatalogued LocalTZA Date_parse random birthData eventType startDate n i k :
  lookupEvent EVENT_TYPES eventType = None ->
  muhuratLoop LocalTZA Date_parse random birthData eventType startDate (S n) i k = None.
Proof.
  intros Hnone. cbn [muhuratLoop]. rewrite Hnone.
  destruct (calculateMuhuratScore _ _ _ _ _); reflexivity.
Qed.

(** C3, as the code has it. Two calls with the same birth profile, event
    type and start date return the same candidates with the same scores in
    the same order, each field but the display time slot being equal; the
    slot of each candidate is one of the four canonical slots, picked by
    [Math.random()]. *)
Theorem ranker_repeatable_up_to_time_slot :
  forall LocalTZA Date_parse random1 random2 birthData eventType startDate,
    option_map (map RankSpec.untimed)
      (generateOptimizedMuhurats LocalTZA Date_parse random1 birthData eventType startDate)
    = option_map (map RankSpec.untimed)
        (generateOptimizedMuhurats LocalTZA Date_parse random2 birthData eventType startDate)
    /\ (RankSpec.unitDraws random1 ->
        forall muhurats,
          generateOptimizedMuhurats LocalTZA Date_parse random1 birthData eventType startDate
          = Some muhurats ->
          Forall RankSpec.canonicalSlot muhurats).
Proof.
  intros LocalTZA Date_parse r1 r2 birthData eventType startDate.
  unfold generateOptimizedMuhurats.
  destruct (lookupEvent EVENT_TYPES eventType) as [ev |] eqn:Hev.
  - split.
    + pose proof (muhuratLoop_untimed LocalTZA Date_parse birthData eventType ev startDate
                    Hev r1 r2 90 0 0%nat 0%nat) as H.
      destruct (muhuratLoop _ _ r1 _ _ _ 90 0 0) as [l1 |];
        destruct (muhuratLoop _ _ r2 _ _ _ 90 0 0) as [l2 |];
        cbn [option_map] in *; try discriminate; [| reflexivity].
      injection H as H. rewrite !untimed_through_ranking, H. reflexivity.
    + intros Hdraws muhurats Hgen.
      destruct (muhuratLoop _ _ r1 _ _ _ 90 0 0) as [l1 |] eqn:Hloop; [| discriminate].
      cbn [option_map] in Hgen. injection Hgen as <-.
      pose proof (muhuratLoop_slots LocalTZA Date_parse birthData eventType ev startDate
                    Hev r1 90 Hdraws 0 0%nat l1 Hloop) as Hslots.
      rewrite Forall_forall in *. intros m Hm. apply Hslots.
      apply (In_slice0 20
               (JS.sort (fun a b => Muhurat.score b - Muhurat.score a) l1)) in Hm.
      eapply Permutation_in; [| exact Hm].
      apply Permutation_sym. apply (sort_Permutation Muhurat.score).
  - rewrite !muhuratLoop_uncatalogued by exact Hev. split; [reflexivity |].
    intros _ muhurats Hgen. discriminate Hgen.
Qed.

Lemma ranker_repeatable_up_to_time_slot_witness :
  RankSpec.unitDraws (fun _ => 1 # 2)%Q
  /\ exists muhurats,
       generateOptimizedMuhurats 0 JSDate.isoDateParse (fun _ => 1 # 2)%Q
         (BirthData.mk "1990-03-15" "04:30" "Pune, India") "wedding" 1704067200000
       = Some muhurats
       /\ Forall RankSpec.canonicalSlot muhurats.
Proof.
  assert (Hdraws : RankSpec.unitDraws (fun _ => 1 # 2)%Q).
  { intros k. split; [discriminate | reflexivity]. }
  split; [exact Hdraws |].
  eexists. split.
  - vm_compute. reflexivity.
  - apply (proj2 (ranker_repeatable_up_to_time_slot 0 JSDate.isoDateParse
                    (fun _ => 1 # 2)%Q (fun _ => 0)%Q
                    (BirthData.mk "1990-03-15" "04:30" "Pune, India") "wedding"
                    1704067200000) Hdraws).
    vm_compute. reflexivity.
Defined.

(** C3 as stated fails: with the same birth profile, event type and start
    date, two runs whose draws differ return different lists. *)
Lemma ranker_time_slot_depends_on_random :
  RankSpec.unitDraws (fun _ => 0)%Q
  /\ RankSpec.unitDraws (fun _ => 1 # 2)%Q
  /\ generateOptimizedMuhurats 0 JSDate.isoDateParse (fun _ => 0)%Q
       (BirthData.mk "1990-03-15" "04:30" "Pune, India") "wedding" 1704067200000
     <> generateOptimizedMuhurats 0 JSDate.isoDateParse (fun _ => 1 # 2)%Q
          (BirthData.mk "1990-03-15" "04:30" "Pune, India") "wedding" 1704067200000.
Proof.
  split; [intros k; split; [discriminate | reflexivity] |].
  split; [intros k; split; [discriminate | reflexivity] |].
  intros H.
  apply (f_equal (option_map (map Muhurat.time))) in H.
  vm_compute in H. discriminate H.
Qed.

(* ===================================================================== *)
(** ** Facts about [Math.floor] on rationals *)
(* ===================================================================== *)

(** Division by a numeral becomes multiplication by its inverse, which
    linear arithmetic accepts. *)
Ltac qconst :=
  unfold Qdiv in *;
  repeat match goal with
         | |- context [Qinv ?c] =>
             let v := eval compute in (Qinv c) in change (Qinv c) with v
         | H : context [Qinv ?c] |- _ =>
             let v := eval compute in (Qinv c) in change (Qinv c) with v in H
         end.

(** A closed integer injected into the rationals becomes a numeral. *)
Ltac qground :=
  repeat match goal with
         | |- context [inject_Z ?a] =>
             let v := eval compute in a in
             match v with
             | Z0 => change (inject_Z a) with (v # 1)%Q
             | Zpos _ => change (inject_Z a) with (v # 1)%Q
             | Zneg _ => change (inject_Z a) with (v # 1)%Q
             end
         end.

Ltac qlra := qground; qconst; lra.


Lemma Qfloor_between (x : Q) (a b : Z) :
  (inject_Z a <= x)%Q -> (x < inject_Z b)%Q -> a <= Qfloor x < b.
Proof.
  intros Hlo Hhi. split.
  - rewrite <- (Qfloor_Z a). apply Qfloor_resp_le. exact Hlo.
  - rewrite Zlt_Qlt. eapply Qle_lt_trans; [apply Qfloor_le | exact Hhi].
Qed.


(* ===================================================================== *)
(** ** Properties of the tithi computation *)
(* ===================================================================== *)

Section TithiFacts.
Local Open Scope Q_scope.




Lemma paksha_copies_agree (sun moon : Q) :
  Calc.paksha (Calculator.calculateTithi sun moon) = Calc.paksha (Poc.calculateTithi sun moon).
Proof. reflexivity. Qed.


End TithiFacts.



Section WrapFacts.
Local Open Scope Q_scope.



End WrapFacts.




(* ===================================================================== *)
(** ** Properties of the nakshatra index *)
(* ===================================================================== *)

Section NakshatraFacts.
Local Open Scope Q_scope.


Lemma nakshatraIndex_range (lon : Q) :
  0 <= lon -> lon < 360 -> (0 <= Calc.nakshatraIndex lon <= 26)%Z.
Proof.
  intros H0 H1. unfold Calc.nakshatraIndex.
  assert (0 <= Qfloor (lon * 27 / 360) < 27)%Z by (apply Qfloor_between; qlra).
  lia.
Qed.


End NakshatraFacts.




(* ===================================================================== *)
(** ** Properties of the daylight partition *)
(* ===================================================================== *)

Section PartitionFacts.
Local Open Scope Q_scope.
Variables sunriseJD sunsetJD : Q.
Hypothesis daylight : sunriseJD < sunsetJD.

Let muhurtaDuration : Q := (sunsetJD - sunriseJD) * 24 / 15.












End PartitionFacts.



(* ===================================================================== *)
(** ** Sunrise and sunset in [calculateMuhurta] *)
(* ===================================================================== *)

Lemma mapM_total {A B : Type} (f : A -> JSNum.result B) (l : list A) :
  (forall x, exists y, f x = JSNum.Ok y) -> exists ys, JSNum.mapM f l = JSNum.Ok ys.
Proof.
  intros Hf. induction l as [| x l [ys IH]]; simpl.
  - exists []. reflexivity.
  - destruct (Hf x) as [y ->]. rewrite IH. exists (y :: ys). reflexivity.
Qed.

Lemma toFixed2_comp (x y : Q) : (x == y)%Q -> JSNum.toFixed2 x = JSNum.toFixed2 y.
Proof.
  intros Hxy. unfold JSNum.toFixed2.
  assert (Hf : Qfloor (x * 100 + (1 # 2)) = Qfloor (y * 100 + (1 # 2)))
    by (rewrite Hxy; reflexivity).
  rewrite Hf. reflexivity.
Qed.

Lemma fixed_day_length (julianDay : Q) :
  JSNum.toFixed2 ((julianDay + 18 / 24 - (julianDay + 6 / 24)) * 24)%Q = "12.00".
Proof.
  rewrite (toFixed2_comp _ 12%Q); [reflexivity | qlra].
Qed.

Lemma poc_step_total (sw : Sweph.Api) (random : nat -> Q) (topo : Sweph.Topo)
    (sunriseJD muhurtaDuration : Q) (i : Z) :
  exists m,
    Calc.muhurtaStep sw random
      (fun y mo d h mi s =>
         JSNum.Ok (Poc.calculatePlanetaryPositions sw topo y mo d h mi s))
      Poc.calculateTithi Poc.calculateYoga sunriseJD muhurtaDuration i
    = JSNum.Ok m.
Proof.
  unfold Calc.muhurtaStep.
  destruct (Calc.muhurtaSpan sunriseJD muhurtaDuration i) as [startTime endTime].
  eexists. reflexivity.
Qed.

(** C6, at the code. For every date and every location
    [calculateMuhurta] reports success with sunrise at 6/24 and sunset at
    18/24 of a day after the Julian day of the date, a day length of
    12.00 hours and no message: the rise/set query of the provider is never
    made, the latitude and the longitude do not enter, and nothing in the
    result tells the values from computed ones.  The calculator script's
    copy either fails as a whole or returns the same fixed values. *)
Theorem sunrise_sunset_are_fixed_hours :
  forall (sw : Sweph.Api) (random : nat -> Q) (year month day : Z)
         (latitude longitude : Q),
    let julianDay := Sweph.julday sw year month day 0 SE_CONSTANTS.SE_GREG_CAL in
    let sixAM := Sweph.revjul sw (julianDay + 6 / 24) SE_CONSTANTS.SE_GREG_CAL in
    let sixPM := Sweph.revjul sw (julianDay + 18 / 24) SE_CONSTANTS.SE_GREG_CAL in
    let r := Poc.calculateMuhurta sw random year month day latitude longitude in
    let c := Calculator.calculateMuhurta sw random year month day latitude longitude in
    (Calc.success r = true
     /\ Calc.sunrise r = Some sixAM /\ Calc.sunset r = Some sixPM
     /\ Calc.dayLength r = Some "12.00" /\ Calc.message r = None)
    /\ (forall latitude' longitude' : Q,
          let r' := Poc.calculateMuhurta sw random year month day latitude' longitude' in
          Calc.sunrise r' = Calc.sunrise r /\ Calc.sunset r' = Calc.sunset r
          /\ Calc.dayLength r' = Calc.dayLength r)
    /\ ((Calc.success c = false /\ Calc.sunrise c = None /\ Calc.sunset c = None
         /\ exists msg, Calc.message c = Some msg)
        \/ (Calc.success c = true
            /\ Calc.sunrise c = Some sixAM /\ Calc.sunset c = Some sixPM
            /\ Calc.dayLength c = Some "12.00" /\ Calc.message c = None)).
Proof.
  intros sw random year month day latitude longitude julianDay sixAM sixPM r c.
  assert (Hpoc : forall la lo,
            let r0 := Poc.calculateMuhurta sw random year month day la lo in
            Calc.success r0 = true
            /\ Calc.sunrise r0 = Some sixAM /\ Calc.sunset r0 = Some sixPM
            /\ Calc.dayLength r0 = Some "12.00" /\ Calc.message r0 = None).
  { intros la lo r0. subst r0. unfold Poc.calculateMuhurta, Calc.muhurtaBody.
    fold julianDay.
    match goal with
    | |- context [JSNum.mapM ?f ?l] =>
        destruct (mapM_total f l) as [ms Hms]; [intros i; apply poc_step_total |]
    end.
    rewrite Hms. cbn [Calc.success Calc.sunrise Calc.sunset Calc.dayLength Calc.message].
    rewrite fixed_day_length. repeat split. }
  split; [apply Hpoc |].
  split.
  { intros la lo r'. subst r' r.
    destruct (Hpoc la lo) as (_ & H1 & H2 & H3 & _).
    destruct (Hpoc latitude longitude) as (_ & H1' & H2' & H3' & _).
    rewrite H1, H2, H3, H1', H2', H3'. repeat split. }
  subst c. unfold Calculator.calculateMuhurta, Calc.muhurtaBody. fold julianDay.
  match goal with
  | |- context [JSNum.mapM ?f ?l] => destruct (JSNum.mapM f l) as [ms | e]
  end.
  - right. cbn [Calc.success Calc.sunrise Calc.sunset Calc.dayLength Calc.message].
    rewrite fixed_day_length. repeat split.
  - left. cbn [Calc.success Calc.sunrise Calc.sunset Calc.message].
    repeat split. eexists. reflexivity.
Qed.

(* ===================================================================== *)
(** ** Properties of [runCalculation] *)
(* ===================================================================== *)

Lemma string_append_assoc (a b c : string) : (a ++ b) ++ c = a ++ (b ++ c).
Proof.
  induction a as [| ch a IH]; simpl; [reflexivity |]. now rewrite IH.
Qed.

Section RunFacts.
Variable Json : Type.
Variable JSON_parse : string -> JSNum.result Json.

Let state := Service.state Json.
Let handle := Service.handle Json JSON_parse.

(** [resolve] and [reject] after the first one are ignored. *)
Lemma settle_ignored (st : state) (p : Service.promise Json) :
  Service.settled Json st <> Service.Pending -> Service.settle Json st p = st.
Proof.
  intros Hst. unfold Service.settle.
  destruct (Service.settled Json st); [contradiction | reflexivity | reflexivity].
Qed.

Lemma handle_settled (st : state) (e : Service.event) :
  Service.settled Json st <> Service.Pending ->
  Service.settled Json (handle st e) = Service.settled Json st.
Proof.
  intros Hst. destruct e as [d | d | code | err]; cbn [handle Service.handle Service.settled];
    try reflexivity.
  - unfold Service.onClose.
    destruct code as [[| p | p] |]; try destruct (JSON_parse _);
      rewrite settle_ignored by exact Hst; reflexivity.
  - rewrite settle_ignored by exact Hst. reflexivity.
Qed.

Lemma settled_stays (events : list Service.event) (st : state) :
  Service.settled Json st <> Service.Pending ->
  Service.settled Json (fold_left handle events st) = Service.settled Json st.
Proof.
  revert st. induction events as [| e events IH]; intros st Hst; [reflexivity |].
  cbn [fold_left]. rewrite IH.
  - apply handle_settled. exact Hst.
  - rewrite handle_settled; exact Hst.
Qed.

(** The promise is settled by the first [close] or [error], from the
    standard output captured until then. *)
Lemma settled_by_ending (events : list Service.event) (st : state) :
  Service.settled Json st = Service.Pending ->
  match Service.ending events with
  | None => Service.settled Json (fold_left handle events st) = Service.Pending
  | Some (Service.Close (Some 0)) =>
      match JSON_parse (Service.stdoutData Json st ++ Service.captured events) with
      | JSNum.Ok value =>
          Service.settled Json (fold_left handle events st) = Service.Resolved value
      | JSNum.Throw _ =>
          exists reason,
            Service.settled Json (fold_left handle events st) = Service.Rejected reason
      end
  | Some _ =>
      exists reason,
        Service.settled Json (fold_left handle events st) = Service.Rejected reason
  end.
Proof.
  revert st. induction events as [| e events IH]; intros st Hst; [exact Hst |].
  destruct e as [d | d | code | err]; cbn [fold_left Service.ending Service.captured].
  - specialize (IH (handle st (Service.StdoutData d)) Hst).
    cbn [handle Service.handle Service.stdoutData] in IH.
    rewrite string_append_assoc in IH. exact IH.
  - exact (IH (handle st (Service.StderrData d)) Hst).
  - assert (Hkeep : forall p, p <> Service.Pending ->
              Service.settled Json (fold_left handle events (Service.settle Json st p)) = p).
    { intros p Hp. rewrite settled_stays; unfold Service.settle; rewrite Hst; [reflexivity |].
      exact Hp. }
    cbn [handle Service.handle]. unfold Service.onClose.
    destruct code as [[| p | p] |].
    + assert (Hout : Service.stdoutData Json st ++ "" = Service.stdoutData Json st).
      { clear. induction (Service.stdoutData Json st) as [| ch s IHs]; simpl;
          [reflexivity | now rewrite IHs]. }
      rewrite Hout.
      destruct (JSON_parse (Service.stdoutData Json st)) as [value | msg].
      * apply Hkeep. discriminate.
      * eexists. apply Hkeep. discriminate.
    + eexists. apply Hkeep. discriminate.
    + eexists. apply Hkeep. discriminate.
    + eexists. apply Hkeep. discriminate.
  - cbn [handle Service.handle]. eexists.
    rewrite settled_stays; unfold Service.settle; rewrite Hst; [reflexivity |].
    discriminate.
Qed.

End RunFacts.

(** C7. The call resolves with the document parsed from the standard
    output captured until the child closed exactly when the child closed
    with code 0 and that output parses as JSON.  A close with any other
    code, an output that does not parse, an [error] event of a child that
    did not start and a throwing [spawn] each reject the call, whatever
    was written to standard output. *)
Theorem runCalculation_resolves_iff_exit_0_and_parse :
  forall (Json : Type) (JSON_parse : string -> JSNum.result Json) (c : Service.child),
    (forall value,
        Service.runCalculation Json JSON_parse c = Service.Resolved value <->
        exists events,
          c = Service.Spawned events
          /\ Service.ending events = Some (Service.Close (Some 0))
          /\ JSON_parse (Service.captured events) = JSNum.Ok value)
    /\ (forall events code,
          c = Service.Spawned events ->
          Service.ending events = Some (Service.Close code) ->
          code <> Some 0 ->
          exists reason, Service.runCalculation Json JSON_parse c = Service.Rejected reason)
    /\ (forall events msg,
          c = Service.Spawned events ->
          Service.ending events = Some (Service.Close (Some 0)) ->
          JSON_parse (Service.captured events) = JSNum.Throw msg ->
          exists reason, Service.runCalculation Json JSON_parse c = Service.Rejected reason)
    /\ (forall events error,
          c = Service.Spawned events ->
          Service.ending events = Some (Service.Error error) ->
          exists reason, Service.runCalculation Json JSON_parse c = Service.Rejected reason)
    /\ (forall error,
          c = Service.SpawnThrows error ->
          exists reason, Service.runCalculation Json JSON_parse c = Service.Rejected reason).
Proof.
  intros Json JSON_parse c.
  assert (Hrun : forall events,
            match Service.ending events with
            | None => Service.runCalculation Json JSON_parse (Service.Spawned events)
                      = Service.Pending
            | Some (Service.Close (Some 0)) =>
                match JSON_parse (Service.captured events) with
                | JSNum.Ok value =>
                    Service.runCalculation Json JSON_parse (Service.Spawned events)
                    = Service.Resolved value
                | JSNum.Throw _ =>
                    exists reason,
                      Service.runCalculation Json JSON_parse (Service.Spawned events)
                      = Service.Rejected reason
                end
            | Some _ =>
                exists reason,
                  Service.runCalculation Json JSON_parse (Service.Spawned events)
                  = Service.Rejected reason
            end).
  { intros events.
    exact (settled_by_ending Json JSON_parse events (Service.initial Json) eq_refl). }
  split.
  { intros value. split.
    - destruct c as [err | events]; [discriminate |].
      intros Hres. exists events. split; [reflexivity |].
      specialize (Hrun events).
      destruct (Service.ending events) as [e |]; [| congruence].
      destruct e as [d | d | code | err];
        [destruct Hrun as [reason Hrej]; congruence
        | destruct Hrun as [reason Hrej]; congruence
        |
        | destruct Hrun as [reason Hrej]; congruence].
      destruct code as [[| p | p] |];
        [
        | destruct Hrun as [reason Hrej]; congruence
        | destruct Hrun as [reason Hrej]; congruence
        | destruct Hrun as [reason Hrej]; congruence].
      destruct (JSON_parse (Service.captured events)) as [v | msg].
      + split; [reflexivity |]. congruence.
      + destruct Hrun as [reason Hrej]. congruence.
    - intros (events & -> & Hend & Hparse).
      specialize (Hrun events). rewrite Hend, Hparse in Hrun. exact Hrun. }
  split.
  { intros events code -> Hend Hcode.
    specialize (Hrun events). rewrite Hend in Hrun.
    destruct code as [[| p | p] |]; try exact Hrun. contradiction. }
  split.
  { intros events msg -> Hend Hparse.
    specialize (Hrun events). rewrite Hend, Hparse in Hrun. exact Hrun. }
  split.
  { intros events error -> Hend.
    specialize (Hrun events). rewrite Hend in Hrun. exact Hrun. }
  intros error ->. eexists. reflexivity.
Qed.

Lemma runCalculation_resolves_iff_exit_0_and_parse_witness :
  let parse := fun s : string =>
                 if String.eqb s "{}" then JSNum.Ok tt else JSNum.Throw "SyntaxError" in
  let events := [Service.StdoutData "{"; Service.StderrData "note"; Service.StdoutData "}";
                 Service.Close (Some 0)] in
  (Service.ending events = Some (Service.Close (Some 0))
   /\ parse (Service.captured events) = JSNum.Ok tt)
  /\ Service.runCalculation unit parse (Service.Spawned events) = Service.Resolved tt.
Proof.
  intros parse events.
  split; [split; reflexivity |].
  apply (proj1 (runCalculation_resolves_iff_exit_0_and_parse unit parse
                  (Service.Spawned events))).
  exists events. repeat split.
Defined.

(* ===================================================================== *)
(** ** Further properties of the simplified ephemeris *)
(* ===================================================================== *)

Lemma diffDays_shift (date n : Z) :
  (date + n * JSDate.msPerDay - baseDate) / (1000 * 60 * 60 * 24)
  = (date - baseDate) / (1000 * 60 * 60 * 24) + n.
Proof.
  replace (date + n * JSDate.msPerDay - baseDate)
    with (date - baseDate + n * (1000 * 60 * 60 * 24))
    by (unfold JSDate.msPerDay; lia).
  apply Z.div_add. lia.
Qed.

Lemma diffDays_sign (date : Z) :
  (baseDate <= date -> 0 <= (date - baseDate) / (1000 * 60 * 60 * 24))
  /\ (date < baseDate -> (date - baseDate) / (1000 * 60 * 60 * 24) < 0).
Proof.
  split; intros H.
  - apply Z.div_pos; lia.
  - apply Z.div_lt_upper_bound; lia.
Qed.

Lemma rem_of_negative (a b : Z) : a < 0 -> 0 < b -> - b < Z.rem a b <= 0.
Proof.
  intros Ha Hb.
  replace a with (- (- a)) by lia.
  rewrite Z.rem_opp_l by lia.
  pose proof (Z.rem_bound_pos (- a) b ltac:(lia) Hb). lia.
Qed.

(** X1. From the base date 2024-01-01 on, [calculateLunarDay] lies in
    1..30 and repeats every 30 days; before the base date the remainder is
    not positive and the result lies in -28..1. *)
Theorem lunar_day_range :
  forall date : Z,
    (baseDate <= date ->
     1 <= calculateLunarDay date <= 30
     /\ calculateLunarDay (date + 30 * JSDate.msPerDay) = calculateLunarDay date)
    /\ (date < baseDate -> -28 <= calculateLunarDay date <= 1).
Proof.
  intros date. destruct (diffDays_sign date) as [Hpos Hneg].
  unfold calculateLunarDay, JS.rem. split; intros H.
  - specialize (Hpos H). split.
    + pose proof (Z.rem_bound_pos _ 30 Hpos ltac:(lia)). lia.
    + rewrite diffDays_shift.
      rewrite !Z.rem_mod_nonneg by lia.
      replace ((date - baseDate) / (1000 * 60 * 60 * 24) + 30)
        with ((date - baseDate) / (1000 * 60 * 60 * 24) + 1 * 30) by lia.
      rewrite Z.mod_add by lia. reflexivity.
  - specialize (Hneg H).
    pose proof (rem_of_negative _ 30 Hneg ltac:(lia)). lia.
Qed.

Lemma lunar_day_range_witness :
  baseDate <= 1706659200000
  /\ 1 <= calculateLunarDay 1706659200000 <= 30
  /\ (1703462400000 < baseDate /\ -28 <= calculateLunarDay 1703462400000 <= 1).
Proof.
  assert (H1 : baseDate <= 1706659200000) by (vm_compute; discriminate).
  assert (H2 : 1703462400000 < baseDate) by reflexivity.
  split; [exact H1 |]. split.
  - apply (proj1 (lunar_day_range 1706659200000) H1).
  - split; [exact H2 |]. apply (proj2 (lunar_day_range 1703462400000) H2).
Defined.

Lemma index_defined {A : Type} (l : list A) (i : Z) :
  0 <= i < Z.of_nat (List.length l) -> exists x, JS.index l i = Some x /\ In x l.
Proof.
  intros [H0 H1]. unfold JS.index.
  destruct (Z.ltb_spec i 0) as [Hneg | _]; [lia |].
  destruct (nth_error l (Z.to_nat i)) as [x |] eqn:E.
  - exists x. split; [reflexivity |]. eapply nth_error_In. exact E.
  - apply nth_error_None in E. lia.
Qed.

(** X2. From the base date on, [getNakshatra] always yields one of the 27
    names; before the base date the index is negative and the result is
    [undefined], except on the days a multiple of 27 days before the base
    date, where it is Ashwini. *)
Theorem nakshatra_of_date_defined :
  forall date : Z,
    (baseDate <= date -> exists n, getNakshatra date = Some n /\ In n NAKSHATRAS)
    /\ (date < baseDate ->
        (JS.rem ((date - baseDate) / (1000 * 60 * 60 * 24)) 27 = 0
         /\ getNakshatra date = Some "Ashwini")
        \/ (JS.rem ((date - baseDate) / (1000 * 60 * 60 * 24)) 27 < 0
            /\ getNakshatra date = None)).
Proof.
  intros date. destruct (diffDays_sign date) as [Hpos Hneg].
  unfold getNakshatra, JS.rem. split; intros H.
  - specialize (Hpos H). apply index_defined.
    pose proof (Z.rem_bound_pos _ 27 Hpos ltac:(lia)) as Hb.
    change (Z.of_nat (List.length NAKSHATRAS)) with 27. exact Hb.
  - specialize (Hneg H).
    pose proof (rem_of_negative _ 27 Hneg ltac:(lia)) as Hb.
    destruct (Z.eq_dec (Z.rem ((date - baseDate) / (1000 * 60 * 60 * 24)) 27) 0) as [E | E].
    + left. rewrite E. split; reflexivity.
    + right. split; [lia |]. unfold JS.index.
      destruct (Z.ltb_spec (Z.rem ((date - baseDate) / (1000 * 60 * 60 * 24)) 27) 0);
        [reflexivity | lia].
Qed.

Lemma nakshatra_of_date_defined_witness :
  baseDate <= 1706659200000
  /\ (exists n, getNakshatra 1706659200000 = Some n /\ In n NAKSHATRAS)
  /\ 1703462400000 < baseDate.
Proof.
  assert (H1 : baseDate <= 1706659200000) by (vm_compute; discriminate).
  split; [exact H1 |]. split.
  - apply (proj1 (nakshatra_of_date_defined 1706659200000) H1).
  - reflexivity.
Defined.

(* ===================================================================== *)
(** ** Further properties of the score *)
(* ===================================================================== *)

Lemma lookupEvent_keys (eventType : string) :
  lookupEvent EVENT_TYPES eventType <> None <-> In eventType RankFacts.eventKeys.
Proof.
  unfold RankFacts.eventKeys, EVENT_TYPES. cbn [lookupEvent map fst In].
  repeat match goal with
         | |- context [String.eqb eventType ?k] =>
             destruct (String.eqb_spec eventType k) as [-> | ?]
         end;
    split; intros H; try discriminate; try tauto; try (exfalso; apply H; reflexivity).
  intuition congruence.
Qed.

Lemma bonus_values l t w n cm bm :
  (ScoreSpec.tithiBonus l t = 0 \/ ScoreSpec.tithiBonus l t = 25)
  /\ (ScoreSpec.weekdayBonus w = 0 \/ ScoreSpec.weekdayBonus w = 10
      \/ ScoreSpec.weekdayBonus w = 15 \/ ScoreSpec.weekdayBonus w = 20)
  /\ (ScoreSpec.nakshatraBonus n = 0 \/ ScoreSpec.nakshatraBonus n = 15)
  /\ (ScoreSpec.phaseBonus cm bm = 0 \/ ScoreSpec.phaseBonus cm bm = 10).
Proof.
  repeat split.
  - unfold ScoreSpec.tithiBonus. destruct (in_dec Z.eq_dec t l); auto.
  - rewrite <- weekday_step. unfold auspiciousDays, JS.prop.
    repeat match goal with |- context [if ?b then _ else _] => destruct b end;
      simpl; auto.
  - unfold ScoreSpec.nakshatraBonus. destruct n as [x |]; auto.
    destruct (in_dec string_dec x auspiciousNakshatras); auto.
  - unfold ScoreSpec.phaseBonus. destruct bm as [b |]; auto.
    destruct ((cm - b) mod 6 =? 0); auto.
Qed.

Lemma clamp_of_raw l t w n cm bm :
  let raw := ScoreSpec.rawScore l t w n cm bm in
  ScoreSpec.clamp 10 100 raw = Z.min raw 100
  /\ 50 <= ScoreSpec.clamp 10 100 raw <= 100
  /\ ScoreSpec.clamp 10 100 raw mod 5 = 0.
Proof.
  intros raw.
  assert (Hc : ScoreSpec.clamp 10 100 raw = Z.min raw 100).
  { pose proof (rawScore_bounds l t w n cm bm) as Hb. fold raw in Hb.
    unfold ScoreSpec.clamp.
    destruct (Z.ltb_spec raw 10); destruct (Z.ltb_spec 100 raw); lia. }
  split; [exact Hc |]. rewrite Hc. subst raw. unfold ScoreSpec.rawScore.
  destruct (bonus_values l t w n cm bm) as (Ht & Hw & Hn & Hp).
  destruct Ht as [-> | ->]; destruct Hw as [-> | [-> | [-> | ->]]];
    destruct Hn as [-> | ->]; destruct Hp as [-> | ->]; vm_compute; intuition discriminate.
Qed.

(** X3. [calculateMuhuratScore] throws exactly for event types outside
    the five keys of the catalog.  Otherwise the score is a multiple of 5
    between 50 and 100: the lower clamp bound of 10 is never reached. *)
Theorem score_grid :
  forall LocalTZA Date_parse date eventType birthData,
    (calculateMuhuratScore LocalTZA Date_parse date eventType birthData <> None
     <-> In eventType ["wedding"; "travel"; "business"; "property"; "education"])
    /\ (forall score,
          calculateMuhuratScore LocalTZA Date_parse date eventType birthData = Some score ->
          50 <= score <= 100 /\ score mod 5 = 0).
Proof.
  intros LocalTZA Date_parse date eventType birthData.
  change ["wedding"; "travel"; "business"; "property"; "education"]
    with RankFacts.eventKeys.
  rewrite <- lookupEvent_keys.
  destruct (lookupEvent EVENT_TYPES eventType) as [ev |] eqn:Hev.
  - rewrite (score_unfold _ _ _ _ ev _ Hev). split.
    + split; intros _; discriminate.
    + intros score [= <-]. apply clamp_of_raw.
  - unfold calculateMuhuratScore. rewrite Hev. split.
    + split; intros H; exfalso; apply H; reflexivity.
    + intros score H. discriminate H.
Qed.

Lemma score_grid_witness :
  calculateMuhuratScore 0 JSDate.isoDateParse 1706659200000 "wedding"
    (BirthData.mk "1990-03-15" "04:30" "Pune, India") = Some 100
  /\ 50 <= 100 <= 100 /\ 100 mod 5 = 0.
Proof.
  split; [reflexivity |].
  apply (proj2 (score_grid 0 JSDate.isoDateParse 1706659200000 "wedding"
                  (BirthData.mk "1990-03-15" "04:30" "Pune, India")) 100).
  reflexivity.
Defined.

(* ===================================================================== *)
(** ** Further properties of the horizon ranker *)
(* ===================================================================== *)

Lemma bonuses_range LocalTZA Date_parse ev birthData date :
  let b := RankFacts.bonuses LocalTZA Date_parse ev birthData date in
  b = 0 \/ 10 <= b <= 70.
Proof.
  intros b. subst b. unfold RankFacts.bonuses.
  destruct (bonus_values (EventType.auspicious ev) (calculateLunarDay date)
              (JSDate.getDay LocalTZA date) (getNakshatra date)
              (JSDate.getMonth LocalTZA date)
              (birthMonthOf LocalTZA Date_parse birthData)) as (Ht & Hw & Hn & Hp).
  destruct Ht as [-> | ->]; destruct Hw as [-> | [-> | [-> | ->]]];
    destruct Hn as [-> | ->]; destruct Hp as [-> | ->]; simpl; lia.
Qed.

Lemma score_of_bonuses LocalTZA Date_parse date eventType ev birthData :
  lookupEvent EVENT_TYPES eventType = Some ev ->
  calculateMuhuratScore LocalTZA Date_parse date eventType birthData
  = Some (Z.min (50 + RankFacts.bonuses LocalTZA Date_parse ev birthData date) 100).
Proof.
  intros Hev. rewrite (score_unfold _ _ _ _ ev _ Hev). f_equal.
  match goal with
  | |- ScoreSpec.clamp 10 100 (ScoreSpec.rawScore ?l ?t ?w ?n ?cm ?bm) = _ =>
      rewrite (proj1 (clamp_of_raw l t w n cm bm))
  end.
  unfold ScoreSpec.rawScore, RankFacts.bonuses. f_equal. lia.
Qed.

(** X4. For an event type of the catalog the ranker drops a day exactly
    when none of the four bonuses applies to it (its score is the base 50);
    any single bonus is enough to reach the threshold of 60. *)
Theorem day_kept_iff_some_bonus :
  forall LocalTZA Date_parse birthData eventType ev startDate i,
    lookupEvent EVENT_TYPES eventType = Some ev ->
    (RankSpec.keeps LocalTZA Date_parse birthData eventType startDate i = true
     <-> 0 < RankFacts.bonuses LocalTZA Date_parse ev birthData (JSDate.addDays startDate i))
    /\ (RankSpec.keeps LocalTZA Date_parse birthData eventType startDate i = false
        <-> calculateMuhuratScore LocalTZA Date_parse (JSDate.addDays startDate i)
              eventType birthData = Some 50).
Proof.
  intros LocalTZA Date_parse birthData eventType ev startDate i Hev.
  unfold RankSpec.keeps.
  rewrite (score_of_bonuses _ _ _ _ ev _ Hev).
  pose proof (bonuses_range LocalTZA Date_parse ev birthData (JSDate.addDays startDate i))
    as Hb. cbv zeta in Hb.
  set (b := RankFacts.bonuses LocalTZA Date_parse ev birthData (JSDate.addDays startDate i))
    in *.
  clearbody b.
  split.
  - rewrite Z.leb_le. lia.
  - rewrite Z.leb_gt. split.
    + intros H. f_equal. lia.
    + intros H. assert (H' : Z.min (50 + b) 100 = 50) by congruence. lia.
Qed.

Lemma day_kept_iff_some_bonus_witness :
  lookupEvent EVENT_TYPES "travel"
  = Some (EventType.mk "Travel" "bg-blue-100 text-blue-800" [2; 4; 6; 8; 10; 12; 14])
  /\ (RankSpec.keeps 0 JSDate.isoDateParse (BirthData.mk "1990-03-15" "04:30" "Pune, India")
        "travel" 1704067200000 5 = false
      <-> calculateMuhuratScore 0 JSDate.isoDateParse (JSDate.addDays 1704067200000 5)
            "travel" (BirthData.mk "1990-03-15" "04:30" "Pune, India") = Some 50).
Proof.
  split; [reflexivity |].
  apply (day_kept_iff_some_bonus 0 JSDate.isoDateParse
           (BirthData.mk "1990-03-15" "04:30" "Pune, India") "travel"
           (EventType.mk "Travel" "bg-blue-100 text-blue-800" [2; 4; 6; 8; 10; 12; 14])
           1704067200000 5).
  reflexivity.
Defined.

Lemma getDay_addDays (LocalTZA startDate i : Z) :
  JSDate.getDay LocalTZA (JSDate.addDays startDate i)
  = (JSDate.getDay LocalTZA startDate + i) mod 7.
Proof.
  unfold JSDate.getDay, JSDate.WeekDay, JSDate.LocalTime, JSDate.addDays, JSDate.Day.
  replace (startDate + i * JSDate.msPerDay + LocalTZA)
    with (startDate + LocalTZA + i * JSDate.msPerDay) by lia.
  rewrite Z.div_add by (unfold JSDate.msPerDay; lia).
  rewrite Zplus_mod_idemp_l. f_equal. lia.
Qed.

Lemma getDay_range (LocalTZA t : Z) : 0 <= JSDate.getDay LocalTZA t < 7.
Proof. unfold JSDate.getDay, JSDate.WeekDay. apply Z.mod_pos_bound. lia. Qed.

Lemma filter_length_mono {A : Type} (f g : A -> bool) (l : list A) :
  (forall x, In x l -> f x = true -> g x = true) ->
  (List.length (filter f l) <= List.length (filter g l))%nat.
Proof.
  induction l as [| x l IH]; intros H; simpl; [lia |].
  assert (IH' : (List.length (filter f l) <= List.length (filter g l))%nat).
  { apply IH. intros y Hy. apply H. right. exact Hy. }
  destruct (f x) eqn:Ef.
  - rewrite (H x (or_introl eq_refl) Ef). simpl. lia.
  - destruct (g x); simpl; lia.
Qed.

(** Whatever the weekday of the start date, at least 51 of the 90 days of
    the horizon fall on a Monday, Wednesday, Thursday or Friday. *)
Lemma bonus_days_in_horizon (w : Z) :
  0 <= w < 7 ->
  (51 <= List.length (filter (fun i => RankFacts.bonusDay ((w + i) mod 7))
                             RankSpec.horizon))%nat.
Proof.
  intros Hw.
  assert (Hcases : w = 0 \/ w = 1 \/ w = 2 \/ w = 3 \/ w = 4 \/ w = 5 \/ w = 6) by lia.
  destruct Hcases as [-> | [-> | [-> | [-> | [-> | [-> | ->]]]]]]; vm_compute; lia.
Qed.

Lemma bonus_day_is_kept LocalTZA Date_parse birthData eventType ev startDate i :
  lookupEvent EVENT_TYPES eventType = Some ev ->
  RankFacts.bonusDay ((JSDate.getDay LocalTZA startDate + i) mod 7) = true ->
  RankSpec.keeps LocalTZA Date_parse birthData eventType startDate i = true.
Proof.
  intros Hev Hday. unfold RankSpec.keeps.
  rewrite (score_of_bonuses _ _ _ _ ev _ Hev). apply Z.leb_le.
  unfold RankFacts.bonusDay in Hday. apply Z.leb_le in Hday.
  rewrite <- getDay_addDays in Hday.
  unfold RankFacts.bonuses.
  destruct (bonus_values (EventType.auspicious ev)
              (calculateLunarDay (JSDate.addDays startDate i))
              (JSDate.getDay LocalTZA (JSDate.addDays startDate i))
              (getNakshatra (JSDate.addDays startDate i))
              (JSDate.getMonth LocalTZA (JSDate.addDays startDate i))
              (birthMonthOf LocalTZA Date_parse birthData)) as (Ht & _ & Hn & Hp).
  lia.
Qed.

Lemma generate_of_loop LocalTZA Date_parse random birthData eventType startDate kept :
  muhuratLoop LocalTZA Date_parse random birthData eventType startDate 90 0 0 = Some kept ->
  generateOptimizedMuhurats LocalTZA Date_parse random birthData eventType startDate
  = Some (JS.slice0 20 (JS.sort (fun a b => Muhurat.score b - Muhurat.score a) kept)).
Proof.
  intros Hloop. unfold generateOptimizedMuhurats. rewrite Hloop. reflexivity.
Qed.

Lemma Forall2_length_eq {A B : Type} (R : A -> B -> Prop) (l : list A) (l' : list B) :
  Forall2 R l l' -> List.length l = List.length l'.
Proof. induction 1; simpl; congruence. Qed.

(** X5. For every event type of the catalog, whatever the birth profile
    and the start date, the ranker returns exactly 20 candidates: the
    weekday bonus alone keeps at least 51 of the 90 days. *)
Theorem ranker_returns_twenty :
  forall LocalTZA Date_parse random birthData eventType ev startDate,
    lookupEvent EVENT_TYPES eventType = Some ev ->
    (51 <= List.length (filter (RankSpec.keeps LocalTZA Date_parse birthData eventType
                                  startDate) RankSpec.horizon))%nat
    /\ exists muhurats,
         generateOptimizedMuhurats LocalTZA Date_parse random birthData eventType startDate
         = Some muhurats
         /\ List.length muhurats = 20%nat.
Proof.
  intros LocalTZA Date_parse random birthData eventType ev startDate Hev.
  assert (Hcount : (51 <= List.length (filter (RankSpec.keeps LocalTZA Date_parse birthData
                                                 eventType startDate) RankSpec.horizon))%nat).
  { eapply Nat.le_trans;
      [apply (bonus_days_in_horizon (JSDate.getDay LocalTZA startDate)), getDay_range |].
    apply filter_length_mono. intros i _ Hday.
    eapply bonus_day_is_kept; eassumption. }
  split; [exact Hcount |].
  destruct (muhuratLoop_kept LocalTZA Date_parse birthData eventType ev startDate Hev
              random 90 0 0%nat) as [kept [Hloop Hkept]].
  apply Forall2_length_eq in Hkept. fold RankSpec.horizon in Hkept.
  eexists. split; [exact (generate_of_loop _ _ _ _ _ _ kept Hloop) |].
  unfold JS.slice0. rewrite length_firstn.
  rewrite <- (Permutation_length (sort_Permutation Muhurat.score kept)).
  lia.
Qed.

Lemma ranker_returns_twenty_witness :
  lookupEvent EVENT_TYPES "education"
  = Some (EventType.mk "Education" "bg-purple-100 text-purple-800" [1; 4; 5; 9; 10; 11])
  /\ exists muhurats,
       generateOptimizedMuhurats (-18000000) JSDate.isoDateParse (fun _ => 3 # 4)%Q
         (BirthData.mk "" "" "") "education" 1750000000000 = Some muhurats
       /\ List.length muhurats = 20%nat.
Proof.
  split; [reflexivity |].
  apply (ranker_returns_twenty (-18000000) JSDate.isoDateParse (fun _ => 3 # 4)%Q
           (BirthData.mk "" "" "") "education"
           (EventType.mk "Education" "bg-purple-100 text-purple-800" [1; 4; 5; 9; 10; 11])
           1750000000000).
  reflexivity.
Defined.




Lemma StronglySorted_app_cross {A : Type} (R : A -> A -> Prop) (l1 l2 : list A) :
  StronglySorted R (l1 ++ l2) -> forall a b, In a l1 -> In b l2 -> R a b.
Proof.
  induction l1 as [| x l1 IH]; simpl; intros Hs a b Ha Hb; [contradiction |].
  inversion Hs as [| ? ? Hs' Hx]; subst.
  destruct Ha as [<- | Ha].
  - rewrite Forall_forall in Hx. apply Hx. apply in_or_app. right. exact Hb.
  - eapply IH; eassumption.
Qed.




(** X7. The 20 returned candidates are the best of the kept ones: a kept
    candidate that is not returned never scores higher than a returned
    one, and every returned candidate was kept. *)
Theorem returned_candidates_dominate :
  forall LocalTZA Date_parse random birthData eventType ev startDate,
    lookupEvent EVENT_TYPES eventType = Some ev ->
    exists kept muhurats,
      muhuratLoop LocalTZA Date_parse random birthData eventType startDate 90 0 0
      = Some kept
      /\ generateOptimizedMuhurats LocalTZA Date_parse random birthData eventType startDate
         = Some muhurats
      /\ (forall m, In m muhurats -> In m kept)
      /\ (forall m, In m kept ->
            In m muhurats
            \/ forall a, In a muhurats -> Muhurat.score m <= Muhurat.score a).
Proof.
  intros LocalTZA Date_parse random birthData eventType ev startDate Hev.
  destruct (muhuratLoop_kept LocalTZA Date_parse birthData eventType ev startDate Hev
              random 90 0 0%nat) as [kept [Hloop Hkept]].
  set (ranked := JS.sort (fun a b => Muhurat.score b - Muhurat.score a) kept).
  exists kept, (firstn 20 ranked).
  split; [exact Hloop |].
  split; [exact (generate_of_loop _ _ _ _ _ _ kept Hloop) |].
  assert (Hperm : Permutation kept ranked) by apply (sort_Permutation Muhurat.score).
  assert (Hsorted : StronglySorted RankSpec.ranksBefore (firstn 20 ranked ++ skipn 20 ranked)).
  { rewrite firstn_skipn. apply (sort_ranked Muhurat.score Muhurat.date).
    eapply candidates_ascending; [exact Hkept |].
    apply filter_ascending, offsets_ascending. }
  split.
  - intros m Hm. apply (Permutation_in _ (Permutation_sym Hperm)).
    rewrite <- (firstn_skipn 20 ranked). apply in_or_app. left. exact Hm.
  - intros m Hm. apply (Permutation_in _ Hperm) in Hm.
    rewrite <- (firstn_skipn 20 ranked) in Hm. apply in_app_or in Hm.
    destruct Hm as [Hm | Hm]; [left; exact Hm | right].
    intros a Ha.
    pose proof (StronglySorted_app_cross _ _ _ Hsorted a m Ha Hm) as Hr.
    unfold RankSpec.ranksBefore in Hr. lia.
Qed.

Lemma returned_candidates_dominate_witness :
  lookupEvent EVENT_TYPES "business"
  = Some (EventType.mk "Business" "bg-green-100 text-green-800" [1; 2; 5; 9; 11; 13; 15])
  /\ exists kept muhurats,
       muhuratLoop 0 JSDate.isoDateParse (fun _ => 0)%Q
         (BirthData.mk "1990-03-15" "04:30" "Pune, India") "business" 1704067200000 90 0 0
       = Some kept
       /\ (forall m, In m muhurats -> In m kept).
Proof.
  split; [reflexivity |].
  destruct (returned_candidates_dominate 0 JSDate.isoDateParse (fun _ => 0)%Q
              (BirthData.mk "1990-03-15" "04:30" "Pune, India") "business"
              (EventType.mk "Business" "bg-green-100 text-green-800" [1; 2; 5; 9; 11; 13; 15])
              1704067200000 eq_refl) as (kept & muhurats & Hloop & _ & Hsub & _).
  exists kept, muhurats. split; assumption.
Defined.

(* ===================================================================== *)
(** ** Further properties of the calendrical derivation *)
(* ===================================================================== *)



Section YogaFacts.
Local Open Scope Q_scope.



End YogaFacts.



Section TithiNames.
Local Open Scope Q_scope.




End TithiNames.



(* ===================================================================== *)
(** ** Further properties of the position builder *)
(* ===================================================================== *)

Section PositionFacts.
Local Open Scope Q_scope.

(** On a non-negative quotient [%] truncates like [Math.floor]. *)
Lemma fmod_of_nonneg (a b : Q) :
  0 <= a / b -> JSNum.fmod a b == a - b * inject_Z (Qfloor (a / b)).
Proof.
  intros Hq. unfold JSNum.fmod. cbv zeta.
  assert (Hfl : Z.quot (Qnum (a / b)) (Zpos (Qden (a / b))) = Qfloor (a / b)).
  { destruct (a / b) as [n d] eqn:E. cbn [Qnum Qden Qfloor].
    apply Z.quot_div_nonneg; [| reflexivity].
    unfold Qle in Hq. cbn [Qnum Qden] in Hq. lia. }
  rewrite Hfl. reflexivity.
Qed.

Lemma degrees_in_sign (longitude : Q) :
  0 <= longitude ->
  JSNum.fmod longitude 30 == longitude - 30 * inject_Z (Qfloor (longitude / 30))
  /\ 0 <= JSNum.fmod longitude 30 /\ JSNum.fmod longitude 30 < 30.
Proof.
  intros H0.
  assert (Hq : 0 <= longitude / 30) by qlra.
  pose proof (fmod_of_nonneg longitude 30 Hq) as Heq.
  split; [exact Heq |]. rewrite Heq.
  pose proof (Qfloor_le (longitude / 30)) as Hlo.
  pose proof (Qlt_floor (longitude / 30)) as Hhi.
  rewrite inject_Z_plus in Hhi. change (inject_Z 1) with 1 in Hhi.
  split; qlra.
Qed.

End PositionFacts.

(** X10. For a longitude in [0,360) the position built for a body carries
    a zodiac sign name and a nakshatra name, a nakshatra number in 1..27,
    and as degrees within the sign the rendering of
    longitude - 30 * floor(longitude / 30), a value in [0,30): sign and
    degrees together give the longitude back. *)
Theorem position_is_well_formed :
  forall (planetName : string) (longitude : Q),
    (0 <= longitude)%Q -> (longitude < 360)%Q ->
    let pos := Calc.position planetName longitude in
    Calc.planet pos = planetName
    /\ Calc.longitude pos = longitude
    /\ (exists sign, Calc.zodiacSign pos = Some sign /\ In sign Calc.zodiacNames)
    /\ (exists n, Calc.nakshatra pos = Some n /\ In n NAKSHATRAS)
    /\ 1 <= Calc.nakshatra_num pos <= 27
    /\ Calc.degreesInSign pos
       = JSNum.toFixed2 (longitude - 30 * inject_Z (Qfloor (longitude / 30)))
    /\ (0 <= longitude - 30 * inject_Z (Qfloor (longitude / 30)))%Q
    /\ (longitude - 30 * inject_Z (Qfloor (longitude / 30)) < 30)%Q.
Proof.
  intros planetName longitude H0 H1 pos. subst pos. unfold Calc.position.
  cbn [Calc.planet Calc.longitude Calc.zodiacSign Calc.nakshatra Calc.nakshatra_num
       Calc.degreesInSign].
  pose proof (nakshatraIndex_range longitude H0 H1) as Hn.
  destruct (degrees_in_sign longitude H0) as (Heq & Hd0 & Hd30).
  split; [reflexivity |]. split; [reflexivity |].
  split.
  { apply index_defined. change (Z.of_nat (List.length Calc.zodiacNames)) with 12.
    apply Qfloor_between; qlra. }
  split.
  { apply index_defined.
    change (Z.of_nat (List.length NAKSHATRAS)) with 27.
    unfold Calc.nakshatraIndex in *. lia. }
  split; [unfold Calc.nakshatraIndex in *; lia |].
  split; [apply toFixed2_comp; exact Heq |].
  rewrite <- Heq. split; assumption.
Qed.

Lemma position_is_well_formed_witness :
  ((0 <= 45)%Q /\ (45 < 360)%Q)
  /\ Calc.zodiacSign (Calc.position "Moon" 45) = Some "Taurus"
  /\ Calc.degreesInSign (Calc.position "Moon" 45) = "15.00"
  /\ 1 <= Calc.nakshatra_num (Calc.position "Moon" 45) <= 27.
Proof.
  assert (H0 : (0 <= 45)%Q) by discriminate.
  assert (H1 : (45 < 360)%Q) by reflexivity.
  split; [split; assumption |].
  split; [reflexivity |]. split; [reflexivity |].
  apply (position_is_well_formed "Moon" 45 H0 H1).
Defined.

(* ===================================================================== *)
(** ** Further properties of the muhurta times *)
(* ===================================================================== *)





(* ===================================================================== *)
(** ** Further properties of [calculatePlanetaryPositions] *)
(* ===================================================================== *)

Lemma mapM_Ok_inv {A B : Type} (f : A -> JSNum.result B) (l : list A) (ys : list B) :
  JSNum.mapM f l = JSNum.Ok ys -> Forall2 (fun x y => f x = JSNum.Ok y) l ys.
Proof.
  revert ys. induction l as [| x l IH]; intros ys; simpl.
  - intros [= <-]. constructor.
  - destruct (f x) as [y | e] eqn:Ex; [| discriminate].
    destruct (JSNum.mapM f l) as [ys' | e]; [| discriminate].
    intros [= <-]. constructor; [exact Ex | apply IH; reflexivity].
Qed.

Lemma mapM_Throw_inv {A B : Type} (f : A -> JSNum.result B) (l : list A) (e : string) :
  JSNum.mapM f l = JSNum.Throw e -> exists x, In x l /\ f x = JSNum.Throw e.
Proof.
  induction l as [| x l IH]; simpl; [discriminate |].
  destruct (f x) as [y | e'] eqn:Ex.
  - destruct (JSNum.mapM f l) as [ys' | e'']; [discriminate |].
    intros [= <-]. destruct (IH eq_refl) as [x' [Hin Hx']].
    exists x'. split; [right; exact Hin | exact Hx'].
  - intros [= <-]. exists x. split; [left; reflexivity | exact Ex].
Qed.

Lemma Forall2_map_eq {A B C : Type} (g : B -> C) (h : A -> C) (l : list A) (l' : list B) :
  Forall2 (fun x y => g y = h x) l l' -> map g l' = map h l.
Proof. induction 1; simpl; congruence. Qed.

Lemma Forall2_weaken {A B : Type} (R R' : A -> B -> Prop) (l : list A) (l' : list B) :
  (forall x y, R x y -> R' x y) -> Forall2 R l l' -> Forall2 R' l l'.
Proof. intros H. induction 1; constructor; auto. Qed.

(** X11. [calculatePlanetaryPositions] is all-or-nothing.  When the
    provider gives a longitude for each of the eight bodies, both copies
    hold the same eight positions, in roster order Sun to Rahu, each with
    the provider's longitude.  When the provider throws for some body, the
    proof of concept returns the empty list and the calculator script a
    failure without positions whose message ends in the provider's error:
    never a partial list. *)
Theorem positions_all_or_nothing :
  forall (sw : Sweph.Api) (topo : Sweph.Topo) (year month day : Z) (hour minute second : Q),
    let julianDay :=
      Sweph.julday sw year month day (hour + minute / 60 + second / 3600)%Q
                   SE_CONSTANTS.SE_GREG_CAL in
    let overPoc := Poc.calculatePlanetaryPositions sw topo year month day hour minute second in
    let overScript :=
      Calculator.calculatePlanetaryPositions sw topo year month day hour minute second in
    (map Calc.planet overPoc
     = ["Sun"; "Moon"; "Mercury"; "Venus"; "Mars"; "Jupiter"; "Saturn"; "Rahu"]
     /\ Forall2 (fun body pos =>
                   Sweph.calc_ut sw topo julianDay (fst body) SE_CONSTANTS.SE_FLG_SWIEPH
                   = JSNum.Ok (Calc.longitude pos)
                   /\ pos = Calc.position (snd body) (Calc.longitude pos))
                Calc.planets overPoc
     /\ Calculator.p_success overScript = true
     /\ Calculator.positions overScript = Some overPoc
     /\ Calculator.p_message overScript = None)
    \/ (exists body e,
          In body Calc.planets
          /\ Sweph.calc_ut sw topo julianDay (fst body) SE_CONSTANTS.SE_FLG_SWIEPH
             = JSNum.Throw e
          /\ overPoc = []
          /\ Calculator.p_success overScript = false
          /\ Calculator.positions overScript = None
          /\ Calculator.p_message overScript
             = Some ("Error calculating planetary positions: " ++ e)).
Proof.
  intros sw topo year month day hour minute second julianDay overPoc overScript.
  subst overPoc overScript.
  unfold Poc.calculatePlanetaryPositions, Calculator.calculatePlanetaryPositions.
  destruct (Calc.positionsTry sw topo year month day hour minute second)
    as [positions | e] eqn:E; unfold Calc.positionsTry in E; fold julianDay in E.
  - left. apply mapM_Ok_inv in E.
    assert (Hall : Forall2 (fun body pos =>
                     Sweph.calc_ut sw topo julianDay (fst body) SE_CONSTANTS.SE_FLG_SWIEPH
                     = JSNum.Ok (Calc.longitude pos)
                     /\ pos = Calc.position (snd body) (Calc.longitude pos))
                   Calc.planets positions).
    { eapply Forall2_weaken; [| exact E]. intros body pos Hpos. cbv beta in Hpos.
      destruct (Sweph.calc_ut sw topo julianDay (fst body) SE_CONSTANTS.SE_FLG_SWIEPH)
        as [lon | e']; [| discriminate].
      injection Hpos as <-. split; reflexivity. }
    split.
    { change ["Sun"; "Moon"; "Mercury"; "Venus"; "Mars"; "Jupiter"; "Saturn"; "Rahu"]
        with (map snd Calc.planets).
      apply Forall2_map_eq. eapply Forall2_weaken; [| exact Hall].
      intros body pos [_ Hpos]. rewrite Hpos. reflexivity. }
    split; [exact Hall |]. repeat split.
  - right. apply mapM_Throw_inv in E. destruct E as [body [Hin Hbody]].
    exists body, e. split; [exact Hin |]. split.
    + destruct (Sweph.calc_ut sw topo julianDay (fst body) SE_CONSTANTS.SE_FLG_SWIEPH)
        as [lon | e']; [discriminate | congruence].
    + repeat split.
Qed.

(* ===================================================================== *)
(** ** Further properties of [calculateMuhurta] *)
(* ===================================================================== *)

Section MuhurtaFacts.
Variable sw : Sweph.Api.
Variable random : nat -> Q.
Variable positionsAt :
  Z -> Z -> Z -> Q -> Q -> Q -> JSNum.result (list Calc.PlanetaryPosition).
Variable calculateTithi : Q -> Q -> Calc.Tithi.
Variable calculateYoga : Q -> Q -> Calc.Yoga.




End MuhurtaFacts.


Lemma Forall2_Forall_r {A B : Type} (R : A -> B -> Prop) (P : B -> Prop)
    (l : list A) (l' : list B) :
  (forall x y, R x y -> P y) -> Forall2 R l l' -> Forall P l'.
Proof. intros H. induction 1; constructor; eauto. Qed.




Section OutageFacts.
Variable sw : Sweph.Api.
Hypothesis outage : CalFacts.sunUnavailable sw.

Lemma positionsTry_outage topo year month day hour minute second :
  exists e, Calc.positionsTry sw topo year month day hour minute second = JSNum.Throw e.
Proof.
  unfold Calc.positionsTry.
  destruct (outage topo
              (Sweph.julday sw year month day (hour + minute / 60 + second / 3600)%Q
                 SE_CONSTANTS.SE_GREG_CAL)) as [e He].
  exists e. unfold Calc.planets. cbn [JSNum.mapM fst]. rewrite He. reflexivity.
Qed.

Lemma poc_positions_outage topo year month day hour minute second :
  Poc.calculatePlanetaryPositions sw topo year month day hour minute second = [].
Proof.
  unfold Poc.calculatePlanetaryPositions.
  destruct (positionsTry_outage topo year month day hour minute second) as [e ->].
  reflexivity.
Qed.

Lemma script_positions_outage topo year month day hour minute second :
  Calculator.positions
    (Calculator.calculatePlanetaryPositions sw topo year month day hour minute second)
  = None.
Proof.
  unfold Calculator.calculatePlanetaryPositions.
  destruct (positionsTry_outage topo year month day hour minute second) as [e ->].
  reflexivity.
Qed.

End OutageFacts.

(** X13. The proof-of-concept [calculateMuhurta] does not fail when the
    provider gives no Sun longitude: it still reports success with 15
    muhurtas, whose tithi, yoga and nakshatra are all "Unknown". *)
Theorem poc_muhurta_degrades_to_unknown :
  forall (sw : Sweph.Api) (random : nat -> Q) (year month day : Z)
         (latitude longitude : Q),
    CalFacts.sunUnavailable sw ->
    let r := Poc.calculateMuhurta sw random year month day latitude longitude in
    Calc.success r = true
    /\ Calc.message r = None
    /\ exists ms,
         Calc.muhurtas r = Some ms
         /\ List.length ms = 15%nat
         /\ Forall (fun m => Calc.m_tithi m = "Unknown"
                             /\ Calc.m_yoga m = Some "Unknown"
                             /\ Calc.m_nakshatra m = Some "Unknown") ms.
Proof.
  intros sw random year month day latitude longitude Hout r. subst r.
  unfold Poc.calculateMuhurta, Calc.muhurtaBody.
  match goal with
  | |- context [JSNum.mapM ?f ?l] =>
      destruct (mapM_total f l) as [ms Hms]; [intros i; apply poc_step_total |]
  end.
  rewrite Hms. cbn [Calc.success Calc.message Calc.muhurtas].
  split; [reflexivity |]. split; [reflexivity |].
  exists ms. split; [reflexivity |].
  apply mapM_Ok_inv in Hms. split.
  - symmetry. apply (Forall2_length_eq _ _ _ Hms).
  - eapply Forall2_Forall_r; [| exact Hms].
    intros i m Hm. cbv beta in Hm. unfold Calc.muhurtaStep, Calc.muhurtaSpan in Hm.
    rewrite (poc_positions_outage sw Hout) in Hm. cbn [Calc.find List.find] in Hm.
    injection Hm as <-. repeat split.
Qed.

Lemma poc_muhurta_degrades_to_unknown_witness :
  CalFacts.sunUnavailable CalFacts.brokenProvider
  /\ Calc.success (Poc.calculateMuhurta CalFacts.brokenProvider (fun _ => 1 # 2)%Q
                     2025 6 21 (1393 # 20) (474 # 25)) = true.
Proof.
  assert (Hout : CalFacts.sunUnavailable CalFacts.brokenProvider).
  { intros topo jd. eexists. reflexivity. }
  split; [exact Hout |].
  apply (poc_muhurta_degrades_to_unknown CalFacts.brokenProvider (fun _ => 1 # 2)%Q
           2025 6 21 (1393 # 20) (474 # 25) Hout).
Defined.

Lemma script_step_total (sw : Sweph.Api) (random : nat -> Q)
    (sunriseJD muhurtaDuration : Q) (i : Z) :
  CalFacts.alwaysAnswers sw ->
  exists m,
    Calc.muhurtaStep sw random
      (fun y mo d h mi s =>
         match Calculator.positions
                 (Calculator.calculatePlanetaryPositions sw None y mo d h mi s) with
         | Some ps => JSNum.Ok ps
         | None => JSNum.Throw Calculator.findOfUndefined
         end)
      Calculator.calculateTithi Calculator.calculateYoga sunriseJD muhurtaDuration i
    = JSNum.Ok m.
Proof.
  intros Hans. unfold Calc.muhurtaStep, Calc.muhurtaSpan.
  unfold Calculator.calculatePlanetaryPositions, Calc.positionsTry.
  match goal with
  | |- context [JSNum.mapM ?f ?l] => destruct (mapM_total f l) as [ps Hps]
  end.
  - intros body. cbv beta.
    match goal with
    | |- context [Sweph.calc_ut sw ?t ?jd ?b ?fl] => destruct (Hans t jd b fl) as [lon ->]
    end.
    eexists. reflexivity.
  - rewrite Hps. cbn [Calculator.positions]. eexists. reflexivity.
Qed.

(** X14. The calculator script's [calculateMuhurta] fails as a whole when
    the provider gives no Sun longitude: no date, sunrise, sunset or
    muhurtas, and a message that names the [TypeError] of reading
    [positions.find], not the provider's own error.  When the provider
    answers for every body it succeeds with a list of muhurtas. *)
Theorem script_muhurta_fails_as_a_whole :
  forall (sw : Sweph.Api) (random : nat -> Q) (year month day : Z)
         (latitude longitude : Q),
    let c := Calculator.calculateMuhurta sw random year month day latitude longitude in
    (CalFacts.sunUnavailable sw ->
     c = {| Calc.success := false; Calc.date := None; Calc.sunrise := None;
            Calc.sunset := None; Calc.dayLength := None; Calc.muhurtas := None;
            Calc.message :=
              Some ("Error calculating muhurta: "
                    ++ "TypeError: Cannot read properties of undefined (reading 'find')") |})
    /\ (CalFacts.alwaysAnswers sw ->
        Calc.success c = true /\ Calc.message c = None
        /\ exists ms, Calc.muhurtas c = Some ms).
Proof.
  intros sw random year month day latitude longitude c. subst c. split.
  - intros Hout. unfold Calculator.calculateMuhurta, Calc.muhurtaBody.
    unfold Calc.muhurtaOrdinals. cbn [seq map JSNum.mapM].
    unfold Calc.muhurtaStep at 1. unfold Calc.muhurtaSpan at 1.
    rewrite (script_positions_outage sw Hout). reflexivity.
  - intros Hans. unfold Calculator.calculateMuhurta, Calc.muhurtaBody.
    match goal with
    | |- context [JSNum.mapM ?f ?l] =>
        destruct (mapM_total f l) as [ms Hms];
          [intros i; apply script_step_total; exact Hans |]
    end.
    rewrite Hms. cbn [Calc.success Calc.message Calc.muhurtas].
    split; [reflexivity |]. split; [reflexivity |]. exists ms. reflexivity.
Qed.

Lemma script_muhurta_fails_as_a_whole_witness :
  CalFacts.sunUnavailable CalFacts.brokenProvider
  /\ CalFacts.alwaysAnswers CalFacts.steadyProvider
  /\ Calc.success (Calculator.calculateMuhurta CalFacts.brokenProvider (fun _ => 1 # 2)%Q
                     2025 6 21 (1393 # 20) (474 # 25)) = false
  /\ Calc.success (Calculator.calculateMuhurta CalFacts.steadyProvider (fun _ => 1 # 2)%Q
                     2025 6 21 (1393 # 20) (474 # 25)) = true.
Proof.
  assert (Hout : CalFacts.sunUnavailable CalFacts.brokenProvider).
  { intros topo jd. eexists. reflexivity. }
  assert (Hans : CalFacts.alwaysAnswers CalFacts.steadyProvider).
  { intros topo jd body flag. eexists. reflexivity. }
  split; [exact Hout |]. split; [exact Hans |].
  split.
  - rewrite (proj1 (script_muhurta_fails_as_a_whole CalFacts.brokenProvider
                      (fun _ => 1 # 2)%Q 2025 6 21 (1393 # 20) (474 # 25)) Hout).
    reflexivity.
  - apply (proj2 (script_muhurta_fails_as_a_whole CalFacts.steadyProvider
                    (fun _ => 1 # 2)%Q 2025 6 21 (1393 # 20) (474 # 25)) Hans).
Defined.

(* ===================================================================== *)
(** ** Further properties of [runCalculation] *)
(* ===================================================================== *)

Lemma string_append_empty (a : string) : a ++ "" = a.
Proof. induction a as [| c a IH]; simpl; [reflexivity | now rewrite IH]. Qed.

Section RunExact.
Variable Json : Type.
Variable JSON_parse : string -> JSNum.result Json.

(** The promise after a run of events, from a pending state. *)
Lemma settled_exactly (events : list Service.event) (st : Service.state Json) :
  Service.settled Json st = Service.Pending ->
  Service.settled Json (fold_left (Service.handle Json JSON_parse) events st)
  = match Service.ending events with
    | Some (Service.Close (Some 0)) =>
        match JSON_parse (Service.stdoutData Json st ++ Service.captured events) with
        | JSNum.Ok value => Service.Resolved value
        | JSNum.Throw error =>
            Service.Rejected ("Failed to parse calculator output: " ++ error)
        end
    | Some (Service.Close code) =>
        Service.Rejected ("Calculator process exited with code " ++ Service.showCode code
                          ++ ": " ++ Service.stderrData Json st
                          ++ ServiceFacts.capturedErr events)
    | Some (Service.Error error) =>
        Service.Rejected ("Failed to start calculator process: " ++ error)
    | _ => Service.Pending
    end.
Proof.
  revert st. induction events as [| e events IH]; intros st Hst; [exact Hst |].
  destruct e as [d | d | code | err];
    cbn [fold_left Service.ending Service.captured ServiceFacts.capturedErr].
  - rewrite (IH (Service.handle Json JSON_parse st (Service.StdoutData d)) Hst).
    cbn [Service.handle Service.stdoutData Service.stderrData].
    rewrite string_append_assoc. reflexivity.
  - rewrite (IH (Service.handle Json JSON_parse st (Service.StderrData d)) Hst).
    cbn [Service.handle Service.stdoutData Service.stderrData].
    rewrite string_append_assoc. reflexivity.
  - rewrite settled_stays.
    + cbn [Service.handle]. unfold Service.onClose, Service.settle. rewrite Hst.
      rewrite !string_append_empty.
      destruct code as [[| p | p] |]; try reflexivity.
      destruct (JSON_parse (Service.stdoutData Json st)); reflexivity.
    + cbn [Service.handle]. unfold Service.onClose, Service.settle. rewrite Hst.
      destruct code as [[| p | p] |]; try discriminate.
      destruct (JSON_parse (Service.stdoutData Json st)); discriminate.
  - rewrite settled_stays.
    + cbn [Service.handle]. unfold Service.settle. rewrite Hst. reflexivity.
    + cbn [Service.handle]. unfold Service.settle. rewrite Hst. discriminate.
Qed.

End RunExact.

Lemma ending_of_prefix (pre post : list Service.event) (e : Service.event) :
  Service.ending pre = None -> ServiceFacts.terminal e = true ->
  Service.ending (pre ++ e :: post) = Some e
  /\ Service.captured (pre ++ e :: post) = Service.captured pre
  /\ ServiceFacts.capturedErr (pre ++ e :: post) = ServiceFacts.capturedErr pre.
Proof.
  intros Hpre He. induction pre as [| x pre IH]; cbn [app].
  - destruct e; try discriminate He; repeat split.
  - destruct x as [d | d | code | err]; cbn [Service.ending] in Hpre; try discriminate Hpre;
      cbn [Service.ending Service.captured ServiceFacts.capturedErr];
      destruct (IH Hpre) as (H1 & H2 & H3); rewrite ?H1, ?H2, ?H3; repeat split.
Qed.

(** X15. The reason of a rejection tells the caller what happened: after
    a close with a non-zero (or null) code it is
    "Calculator process exited with code <code>: " followed by everything
    the child wrote to standard error before closing; after a close with
    code 0 whose output does not parse it is "Failed to parse calculator
    output: " and the parse error; after an [error] event it is "Failed to
    start calculator process: " and the error.  While the child has
    neither closed nor failed the call stays pending. *)
Theorem runCalculation_rejection_reasons :
  forall (Json : Type) (JSON_parse : string -> JSNum.result Json)
         (events : list Service.event),
    let outcome := Service.runCalculation Json JSON_parse (Service.Spawned events) in
    (forall code,
        Service.ending events = Some (Service.Close code) -> code <> Some 0 ->
        outcome = Service.Rejected
                    ("Calculator process exited with code " ++ Service.showCode code
                     ++ ": " ++ ServiceFacts.capturedErr events))
    /\ (forall error,
          Service.ending events = Some (Service.Close (Some 0)) ->
          JSON_parse (Service.captured events) = JSNum.Throw error ->
          outcome = Service.Rejected ("Failed to parse calculator output: " ++ error))
    /\ (forall error,
          Service.ending events = Some (Service.Error error) ->
          outcome = Service.Rejected ("Failed to start calculator process: " ++ error))
    /\ (Service.ending events = None -> outcome = Service.Pending).
Proof.
  intros Json JSON_parse events outcome. subst outcome.
  unfold Service.runCalculation.
  rewrite (settled_exactly Json JSON_parse events (Service.initial Json) eq_refl).
  cbn [Service.initial Service.stdoutData Service.stderrData append].
  split.
  { intros code -> Hcode. destruct code as [[| p | p] |]; try reflexivity. contradiction. }
  split.
  { intros error -> ->. reflexivity. }
  split.
  { intros error ->. reflexivity. }
  intros ->. reflexivity.
Qed.

Lemma runCalculation_rejection_reasons_witness :
  let events := [Service.StderrData "sweph: "; Service.StdoutData "{";
                 Service.StderrData "no ephe path"; Service.Close (Some 1)] in
  Service.ending events = Some (Service.Close (Some 1))
  /\ Service.runCalculation unit (fun _ => JSNum.Ok tt) (Service.Spawned events)
     = Service.Rejected "Calculator process exited with code 1: sweph: no ephe path".
Proof.
  intros events. split; [reflexivity |].
  apply (proj1 (runCalculation_rejection_reasons unit (fun _ => JSNum.Ok tt) events)
           (Some 1)).
  - reflexivity.
  - discriminate.
Defined.

(** X16. The call is decided by the first [close] or [error] event:
    whatever the child emits afterwards, be it more output, another close
    or an error, does not change the settled promise. *)
Theorem runCalculation_ignores_late_events :
  forall (Json : Type) (JSON_parse : string -> JSNum.result Json)
         (pre post : list Service.event) (e : Service.event),
    Service.ending pre = None ->
    ServiceFacts.terminal e = true ->
    Service.runCalculation Json JSON_parse (Service.Spawned (pre ++ e :: post))
    = Service.runCalculation Json JSON_parse (Service.Spawned (pre ++ [e]))
    /\ Service.runCalculation Json JSON_parse (Service.Spawned (pre ++ e :: post))
       <> Service.Pending.
Proof.
  intros Json JSON_parse pre post e Hpre He.
  unfold Service.runCalculation.
  rewrite !(settled_exactly Json JSON_parse _ (Service.initial Json) eq_refl).
  destruct (ending_of_prefix pre post e Hpre He) as (H1 & H2 & H3).
  destruct (ending_of_prefix pre [] e Hpre He) as (H1' & H2' & H3').
  rewrite H1, H2, H3, H1', H2', H3'.
  split; [reflexivity |].
  destruct e as [d | d | [[| p | p] |] | err]; try discriminate He; try discriminate.
  destruct (JSON_parse _); discriminate.
Qed.

Lemma runCalculation_ignores_late_events_witness :
  Service.ending [Service.StdoutData "{}"] = None
  /\ ServiceFacts.terminal (Service.Close (Some 0)) = true
  /\ Service.runCalculation unit (fun _ => JSNum.Ok tt)
       (Service.Spawned ([Service.StdoutData "{}"] ++ Service.Close (Some 0)
                         :: [Service.Error "late"; Service.Close (Some 1)]))
     = Service.runCalculation unit (fun _ => JSNum.Ok tt)
         (Service.Spawned ([Service.StdoutData "{}"] ++ [Service.Close (Some 0)])).
Proof.
  split; [reflexivity |]. split; [reflexivity |].
  apply (runCalculation_ignores_late_events unit (fun _ => JSNum.Ok tt)
           [Service.StdoutData "{}"] [Service.Error "late"; Service.Close (Some 1)]
           (Service.Close (Some 0))); reflexivity.
Defined.

(* ===================================================================== *)
(** ** Properties of the public methods of the service *)
(* ===================================================================== *)

Section MethodFacts.
Variable Json : Type.
Variable JSON_parse : string -> JSNum.result Json.
Variable successOf : Json -> bool.
Variable w : ServiceApi.world.

Let runChild (n : nat) (r : ServiceApi.request) : Service.promise Json :=
  Service.runCalculation Json JSON_parse (ServiceApi.spawnFor w n r).

Let testRequest : ServiceApi.request :=
  {| ServiceApi.command := "test"; ServiceApi.args := ServiceApi.NoArguments |}.

(** [initialize] never rejects; it spawns the test child unless writing
    the script throws; it sets the flag exactly when the test document
    reports success. *)
Lemma initialize_shape (s : ServiceApi.service) :
  let out := ServiceApi.initialize Json JSON_parse successOf w s in
  match ServiceApi.scriptAt w (List.length (ServiceApi.spawned s)) with
  | ServiceApi.CreateThrows _ => out = (Service.Resolved false, s)
  | _ =>
      ServiceApi.spawned (snd out) = (ServiceApi.spawned s ++ [testRequest])%list
      /\ match runChild (List.length (ServiceApi.spawned s)) testRequest with
         | Service.Pending =>
             fst out = Service.Pending
             /\ ServiceApi.initialized (snd out) = ServiceApi.initialized s
         | Service.Resolved doc =>
             fst out = Service.Resolved (successOf doc)
             /\ ServiceApi.initialized (snd out)
                = (successOf doc || ServiceApi.initialized s)%bool
         | Service.Rejected _ =>
             fst out = Service.Resolved false
             /\ ServiceApi.initialized (snd out) = ServiceApi.initialized s
         end
  end.
Proof.
  intros out. subst out. unfold ServiceApi.initialize, ServiceApi.run.
  fold testRequest. fold (runChild (List.length (ServiceApi.spawned s)) testRequest).
  destruct (ServiceApi.scriptAt w (List.length (ServiceApi.spawned s)));
    try reflexivity;
    destruct (runChild (List.length (ServiceApi.spawned s)) testRequest) as [| doc | reason];
    cbn [fst snd ServiceApi.spawned ServiceApi.initialized];
    try (split; [reflexivity | split; reflexivity]);
    destruct (successOf doc); cbn [fst snd ServiceApi.spawned ServiceApi.initialized orb];
    (split; [reflexivity | split; reflexivity]).
Qed.

(** The state in which the calculation child is spawned, when the call
    gets that far. *)
Lemma muhurta_call_shape (s : ServiceApi.service) (year month day : Z)
    (latitude longitude : Q) :
  let request := ServiceApi.muhurtaRequest (year, month, day, latitude, longitude) in
  let out := ServiceApi.calculateMuhurta Json JSON_parse successOf w s
               year month day latitude longitude in
  let initOut :=
    if ServiceApi.initialized s then (Service.Resolved true, s)
    else ServiceApi.initialize Json JSON_parse successOf w s in
  (fst initOut = Service.Pending /\ out = (Service.Pending, snd initOut))
  \/ (fst initOut <> Service.Pending
      /\ ServiceApi.spawned (snd out)
         = (ServiceApi.spawned (snd initOut) ++ [request])%list
      /\ ServiceApi.initialized (snd out) = ServiceApi.initialized (snd initOut)
      /\ fst out
         = match runChild (List.length (ServiceApi.spawned (snd initOut))) request with
           | Service.Pending => Service.Pending
           | Service.Resolved doc => Service.Resolved (ServiceApi.Document doc)
           | Service.Rejected reason =>
               Service.Resolved (ServiceApi.Failed ("Error calculating muhurta: " ++ reason))
           end).
Proof.
  intros request out initOut. subst out.
  unfold ServiceApi.calculateMuhurta. fold initOut.
  assert (Hinit : forall reason, fst initOut <> Service.Rejected reason).
  { intros reason. subst initOut. destruct (ServiceApi.initialized s); [discriminate |].
    pose proof (initialize_shape s) as Hs. cbv zeta in Hs.
    destruct (ServiceApi.scriptAt w (List.length (ServiceApi.spawned s)));
      try (rewrite Hs; discriminate);
      destruct Hs as [_ Hs];
      destruct (runChild (List.length (ServiceApi.spawned s)) testRequest);
      destruct Hs as [-> _]; discriminate. }
  destruct initOut as [init s1] eqn:E. cbn [fst snd] in *.
  destruct init as [| b | reason].
  - left. split; reflexivity.
  - right. split; [discriminate |].
    unfold ServiceApi.run. cbv zeta.
    fold request. unfold ServiceApi.muhurtaRequest in request. fold request.
    fold (runChild (List.length (ServiceApi.spawned s1)) request).
    destruct (runChild (List.length (ServiceApi.spawned s1)) request);
      cbn [fst snd ServiceApi.spawned ServiceApi.initialized]; repeat split.
  - exfalso. exact (Hinit reason eq_refl).
Qed.

(** The same for [calculatePlanetaryPositions]. *)
Lemma positions_call_shape (s : ServiceApi.service) (year month day : Z)
    (hour minute second : Q) :
  let request :=
    {| ServiceApi.command := "planetaryPositions";
       ServiceApi.args := ServiceApi.PositionArguments year month day hour minute second |} in
  let out := ServiceApi.calculatePlanetaryPositions Json JSON_parse successOf w s
               year month day hour minute second in
  let initOut :=
    if ServiceApi.initialized s then (Service.Resolved true, s)
    else ServiceApi.initialize Json JSON_parse successOf w s in
  (fst initOut = Service.Pending /\ out = (Service.Pending, snd initOut))
  \/ (fst initOut <> Service.Pending
      /\ ServiceApi.spawned (snd out)
         = (ServiceApi.spawned (snd initOut) ++ [request])%list
      /\ ServiceApi.initialized (snd out) = ServiceApi.initialized (snd initOut)
      /\ fst out
         = match runChild (List.length (ServiceApi.spawned (snd initOut))) request with
           | Service.Pending => Service.Pending
           | Service.Resolved doc => Service.Resolved (ServiceApi.Document doc)
           | Service.Rejected reason =>
               Service.Resolved
                 (ServiceApi.Failed ("Error calculating planetary positions: " ++ reason))
           end).
Proof.
  intros request out initOut. subst out.
  unfold ServiceApi.calculatePlanetaryPositions. fold initOut.
  assert (Hinit : forall reason, fst initOut <> Service.Rejected reason).
  { intros reason. subst initOut. destruct (ServiceApi.initialized s); [discriminate |].
    pose proof (initialize_shape s) as Hs. cbv zeta in Hs.
    destruct (ServiceApi.scriptAt w (List.length (ServiceApi.spawned s)));
      try (rewrite Hs; discriminate);
      destruct Hs as [_ Hs];
      destruct (runChild (List.length (ServiceApi.spawned s)) testRequest);
      destruct Hs as [-> _]; discriminate. }
  destruct initOut as [init s1] eqn:E. cbn [fst snd] in *.
  destruct init as [| b | reason].
  - left. split; reflexivity.
  - right. split; [discriminate |].
    unfold ServiceApi.run. cbv zeta.
    fold request.
    fold (runChild (List.length (ServiceApi.spawned s1)) request).
    destruct (runChild (List.length (ServiceApi.spawned s1)) request);
      cbn [fst snd ServiceApi.spawned ServiceApi.initialized]; repeat split.
  - exfalso. exact (Hinit reason eq_refl).
Qed.

End MethodFacts.

(** X17. [calculateMuhurta] of the service never rejects.  It resolves
    with the document of the calculation child exactly as that child's run
    resolves, and with [{ success: false, message }] whose message is
    "Error calculating muhurta: " followed by the rejection reason when that
    run rejects; the outcome of [initialize] never enters the reply.  It
    stays pending only when a child it spawned never closes. *)
Theorem service_muhurta_never_rejects :
  forall (Json : Type) (JSON_parse : string -> JSNum.result Json)
         (successOf : Json -> bool) (w : ServiceApi.world) (s : ServiceApi.service)
         (year month day : Z) (latitude longitude : Q),
    let request := ServiceApi.muhurtaRequest (year, month, day, latitude, longitude) in
    let out := ServiceApi.calculateMuhurta Json JSON_parse successOf w s
                 year month day latitude longitude in
    let runChild := fun n r =>
      Service.runCalculation Json JSON_parse (ServiceApi.spawnFor w n r) in
    (forall reason, fst out <> Service.Rejected reason)
    /\ (forall doc,
          fst out = Service.Resolved (ServiceApi.Document doc) ->
          exists pre,
            ServiceApi.spawned (snd out) = (pre ++ [request])%list
            /\ runChild (List.length pre) request = Service.Resolved doc)
    /\ (forall message,
          fst out = Service.Resolved (ServiceApi.Failed message) ->
          exists pre reason,
            ServiceApi.spawned (snd out) = (pre ++ [request])%list
            /\ runChild (List.length pre) request = Service.Rejected reason
            /\ message = "Error calculating muhurta: " ++ reason)
    /\ (fst out = Service.Pending ->
        exists pre r,
          ServiceApi.spawned (snd out) = (pre ++ [r])%list
          /\ runChild (List.length pre) r = Service.Pending).
Proof.
  intros Json JSON_parse successOf w s year month day latitude longitude request out runChild.
  pose proof (muhurta_call_shape Json JSON_parse successOf w s year month day
                latitude longitude) as Hshape.
  cbv zeta in Hshape. fold request in Hshape. fold out in Hshape.
  destruct Hshape as [[Hinit Hout] | (Hinit & Hsp & _ & Hfst)].
  - rewrite Hout. cbn [fst snd].
    split; [intros reason; discriminate |].
    split; [intros doc H; discriminate H |].
    split; [intros message H; discriminate H |].
    intros _.
    destruct (ServiceApi.initialized s); [discriminate Hinit |].
    pose proof (initialize_shape Json JSON_parse successOf w s) as Hs. cbv zeta in Hs.
    exists (ServiceApi.spawned s),
      {| ServiceApi.command := "test"; ServiceApi.args := ServiceApi.NoArguments |}.
    destruct (ServiceApi.scriptAt w (List.length (ServiceApi.spawned s)));
      try (rewrite Hs in Hinit; discriminate Hinit);
      destruct Hs as [Hspawned Hs]; (split; [exact Hspawned |]);
      unfold runChild;
      destruct (Service.runCalculation Json JSON_parse
                  (ServiceApi.spawnFor w (List.length (ServiceApi.spawned s))
                     {| ServiceApi.command := "test";
                        ServiceApi.args := ServiceApi.NoArguments |}));
      try reflexivity; destruct Hs as [Hs _]; rewrite Hs in Hinit; discriminate Hinit.
  - set (pre := ServiceApi.spawned
                  (snd (if ServiceApi.initialized s then (Service.Resolved true, s)
                        else ServiceApi.initialize Json JSON_parse successOf w s))) in *.
    fold (runChild (List.length pre) request) in Hfst.
    split.
    { intros reason. rewrite Hfst. destruct (runChild (List.length pre) request); discriminate. }
    split.
    { intros doc H. exists pre. split; [exact Hsp |].
      rewrite Hfst in H. destruct (runChild (List.length pre) request) eqn:E;
        try discriminate H. congruence. }
    split.
    { intros message H. rewrite Hfst in H.
      destruct (runChild (List.length pre) request) as [| doc | reason] eqn:E;
        try discriminate H.
      exists pre, reason. split; [exact Hsp |]. split; [exact E | congruence]. }
    intros H. rewrite Hfst in H. exists pre, request. split; [exact Hsp |].
    destruct (runChild (List.length pre) request) eqn:E; try discriminate H. reflexivity.
Qed.

Lemma service_muhurta_never_rejects_witness :
  let w := {| ServiceApi.spawnFor := fun n r =>
                if Nat.eqb n 0 then Service.Spawned [Service.Close (Some 1)]
                else Service.Spawned [Service.StdoutData "{}"; Service.Close (Some 0)];
              ServiceApi.scriptAt := fun _ => ServiceApi.ScriptPresent |} in
  let out := ServiceApi.calculateMuhurta unit (fun _ => JSNum.Ok tt) (fun _ => true) w
               (ServiceApi.mkService false []) 2025 6 21 (1393 # 20) (474 # 25) in
  fst out = Service.Resolved (ServiceApi.Document tt)
  /\ exists pre, ServiceApi.spawned (snd out)
                 = (pre ++ [ServiceApi.muhurtaRequest (2025, 6, 21, (1393 # 20)%Q,
                                                        (474 # 25)%Q)])%list.
Proof.
  intros w out. split; [reflexivity |].
  destruct (proj1 (proj2 (service_muhurta_never_rejects unit (fun _ => JSNum.Ok tt)
                            (fun _ => true) w (ServiceApi.mkService false [])
                            2025 6 21 (1393 # 20) (474 # 25))) tt eq_refl)
    as [pre [Hpre _]].
  exists pre. exact Hpre.
Defined.

(** X18. A service that is not initialised tries to initialise at each
    call, and a failed initialisation does not stop the calculation: unless
    the test child never closes, the calculation child is spawned whether
    the test succeeded, failed or could not run, and even when the script
    could not be written.  The [initialized] flag is set exactly when the
    test document reports success. *)
Theorem failed_initialisation_does_not_block :
  forall (Json : Type) (JSON_parse : string -> JSNum.result Json)
         (successOf : Json -> bool) (w : ServiceApi.world) (s : ServiceApi.service)
         (year month day : Z) (latitude longitude : Q),
    ServiceApi.initialized s = false ->
    let request := ServiceApi.muhurtaRequest (year, month, day, latitude, longitude) in
    let test := {| ServiceApi.command := "test"; ServiceApi.args := ServiceApi.NoArguments |} in
    let out := ServiceApi.calculateMuhurta Json JSON_parse successOf w s
                 year month day latitude longitude in
    match ServiceApi.scriptAt w (List.length (ServiceApi.spawned s)) with
    | ServiceApi.CreateThrows _ =>
        ServiceApi.spawned (snd out) = (ServiceApi.spawned s ++ [request])%list
        /\ ServiceApi.initialized (snd out) = false
    | _ =>
        match Service.runCalculation Json JSON_parse
                (ServiceApi.spawnFor w (List.length (ServiceApi.spawned s)) test) with
        | Service.Pending =>
            fst out = Service.Pending
            /\ ServiceApi.spawned (snd out) = (ServiceApi.spawned s ++ [test])%list
        | Service.Resolved doc =>
            ServiceApi.spawned (snd out) = (ServiceApi.spawned s ++ [test; request])%list
            /\ ServiceApi.initialized (snd out) = successOf doc
        | Service.Rejected _ =>
            ServiceApi.spawned (snd out) = (ServiceApi.spawned s ++ [test; request])%list
            /\ ServiceApi.initialized (snd out) = false
        end
    end.
Proof.
  intros Json JSON_parse successOf w s year month day latitude longitude Hflag
         request test out.
  pose proof (muhurta_call_shape Json JSON_parse successOf w s year month day
                latitude longitude) as Hshape.
  cbv zeta in Hshape. fold request in Hshape. fold out in Hshape.
  rewrite Hflag in Hshape.
  pose proof (initialize_shape Json JSON_parse successOf w s) as Hs. cbv zeta in Hs.
  fold test in Hs. rewrite Hflag in Hs.
  destruct (ServiceApi.scriptAt w (List.length (ServiceApi.spawned s))).
  1, 2: destruct Hs as [Hspawned Hs];
    destruct (Service.runCalculation Json JSON_parse
                (ServiceApi.spawnFor w (List.length (ServiceApi.spawned s)) test))
      as [| doc | reason];
    destruct Hs as [Hfst Hinit].
  all: destruct Hshape as [[Hp Hout] | (Hp & Hsp & Hin & _)].
  all: try (rewrite Hfst in Hp; discriminate Hp).
  all: try (exfalso; apply Hp; exact Hfst).
  all: try (rewrite Hout; cbn [fst snd]; split; [reflexivity | exact Hspawned]).
  all: try (rewrite Hsp, Hin, Hspawned, Hinit, <- app_assoc; cbn [app];
            rewrite ?orb_false_r; split; reflexivity).
  - rewrite Hs in Hp. discriminate Hp.
  - rewrite Hs in Hsp, Hin. cbn [fst snd] in Hsp, Hin.
    rewrite Hsp, Hin, Hflag. split; reflexivity.
Qed.

Lemma failed_initialisation_does_not_block_witness :
  let w := {| ServiceApi.spawnFor := fun n r => Service.Spawned [Service.Close (Some 1)];
              ServiceApi.scriptAt := fun _ => ServiceApi.ScriptPresent |} in
  let out := ServiceApi.calculateMuhurta unit (fun _ => JSNum.Ok tt) (fun _ => true) w
               (ServiceApi.mkService false []) 2025 6 21 (1393 # 20) (474 # 25) in
  ServiceApi.initialized (ServiceApi.mkService false []) = false
  /\ ServiceApi.initialized (snd out) = false
  /\ List.length (ServiceApi.spawned (snd out)) = 2%nat.
Proof.
  intros w out. split; [reflexivity |].
  pose proof (failed_initialisation_does_not_block unit (fun _ => JSNum.Ok tt)
                (fun _ => true) w (ServiceApi.mkService false [])
                2025 6 21 (1393 # 20) (474 # 25) eq_refl) as H.
  cbv zeta in H. cbn in H. destruct H as [Hsp Hin].
  split; [exact Hin |]. exact (f_equal (@List.length _) Hsp).
Defined.

(** X20. Once the service is initialised it stays so, and it never runs
    the test command again: over any sequence of awaited [calculateMuhurta]
    calls, each call that is reached spawns exactly one child, for its own
    request. *)
Theorem initialised_service_spawns_once_per_call :
  forall (Json : Type) (JSON_parse : string -> JSNum.result Json)
         (successOf : Json -> bool) (w : ServiceApi.world)
         (calls : list (Z * Z * Z * Q * Q)) (s : ServiceApi.service),
    ServiceApi.initialized s = true ->
    let s' := ServiceApi.muhurtaSession Json JSON_parse successOf w calls s in
    ServiceApi.initialized s' = true
    /\ exists n,
         (n <= List.length calls)%nat
         /\ ServiceApi.spawned s'
            = (ServiceApi.spawned s ++ map ServiceApi.muhurtaRequest (firstn n calls))%list.
Proof.
  intros Json JSON_parse successOf w calls.
  induction calls as [| c calls IH]; intros s Hflag s'; subst s'.
  - cbn [ServiceApi.muhurtaSession]. split; [exact Hflag |].
    exists 0%nat. split; [lia |]. cbn [firstn map]. rewrite app_nil_r. reflexivity.
  - destruct c as [[[[year month] day] latitude] longitude].
    cbn [ServiceApi.muhurtaSession].
    pose proof (muhurta_call_shape Json JSON_parse successOf w s year month day
                  latitude longitude) as Hshape.
    cbv zeta in Hshape. rewrite Hflag in Hshape. cbn [fst snd] in Hshape.
    destruct Hshape as [[Hp _] | (_ & Hsp & Hin & _)]; [discriminate Hp |].
    destruct (ServiceApi.calculateMuhurta Json JSON_parse successOf w s year month day
                latitude longitude) as [p s1].
    cbn [fst snd] in Hsp, Hin.
    assert (Hstop : ServiceApi.initialized s1 = true
                    /\ exists n, (n <= List.length ((year, month, day, latitude, longitude)
                                                     :: calls))%nat
                       /\ ServiceApi.spawned s1
                          = (ServiceApi.spawned s
                             ++ map ServiceApi.muhurtaRequest
                                  (firstn n ((year, month, day, latitude, longitude)
                                             :: calls)))%list).
    { split; [congruence |]. exists 1%nat. split; [cbn [List.length]; lia |].
      cbn [firstn map]. exact Hsp. }
    assert (Hgo : ServiceApi.initialized
                    (ServiceApi.muhurtaSession Json JSON_parse successOf w calls s1) = true
                  /\ exists n, (n <= List.length ((year, month, day, latitude, longitude)
                                                   :: calls))%nat
                     /\ ServiceApi.spawned
                          (ServiceApi.muhurtaSession Json JSON_parse successOf w calls s1)
                        = (ServiceApi.spawned s
                           ++ map ServiceApi.muhurtaRequest
                                (firstn n ((year, month, day, latitude, longitude)
                                           :: calls)))%list).
    { destruct (IH s1 ltac:(congruence)) as [Hi [n [Hn Hs]]].
      split; [exact Hi |]. exists (S n). split; [cbn [List.length]; lia |].
      rewrite Hs, Hsp, <- app_assoc. reflexivity. }
    destruct p; [exact Hstop | exact Hgo | exact Hgo].
Qed.

Lemma initialised_service_spawns_once_per_call_witness :
  let w := {| ServiceApi.spawnFor := fun n r =>
                Service.Spawned [Service.StdoutData "{}"; Service.Close (Some 0)];
              ServiceApi.scriptAt := fun _ => ServiceApi.ScriptPresent |} in
  ServiceApi.initialized (ServiceApi.mkService true []) = true
  /\ ServiceApi.initialized
       (ServiceApi.muhurtaSession unit (fun _ => JSNum.Ok tt) (fun _ => true) w
          [(2025, 6, 21, (1393 # 20)%Q, (474 # 25)%Q); (2025, 12, 21, 0%Q, 0%Q)]
          (ServiceApi.mkService true [])) = true.
Proof.
  intros w. split; [reflexivity |].
  apply (initialised_service_spawns_once_per_call unit (fun _ => JSNum.Ok tt)
           (fun _ => true) w
           [(2025, 6, 21, (1393 # 20)%Q, (474 # 25)%Q); (2025, 12, 21, 0%Q, 0%Q)]
           (ServiceApi.mkService true [])).
  reflexivity.
Defined.

(** X21. [calculatePlanetaryPositions] of the service follows the same
    protocol as [calculateMuhurta]: it never rejects; it spawns its child
    with the command "planetaryPositions" and the six date and time
    arguments; it resolves with that child's document exactly as the
    child's run resolves, and with [{ success: false, message }] whose
    message is "Error calculating planetary positions: " followed by the
    rejection reason when the run rejects.  An initialised service spawns
    that one child and nothing else, and stays initialised. *)
Theorem service_positions_never_rejects :
  forall (Json : Type) (JSON_parse : string -> JSNum.result Json)
         (successOf : Json -> bool) (w : ServiceApi.world) (s : ServiceApi.service)
         (year month day : Z) (hour minute second : Q),
    let request :=
      {| ServiceApi.command := "planetaryPositions";
         ServiceApi.args :=
           ServiceApi.PositionArguments year month day hour minute second |} in
    let out := ServiceApi.calculatePlanetaryPositions Json JSON_parse successOf w s
                 year month day hour minute second in
    let runChild := fun n r =>
      Service.runCalculation Json JSON_parse (ServiceApi.spawnFor w n r) in
    (forall reason, fst out <> Service.Rejected reason)
    /\ (forall doc,
          fst out = Service.Resolved (ServiceApi.Document doc) ->
          exists pre,
            ServiceApi.spawned (snd out) = (pre ++ [request])%list
            /\ runChild (List.length pre) request = Service.Resolved doc)
    /\ (forall message,
          fst out = Service.Resolved (ServiceApi.Failed message) ->
          exists pre reason,
            ServiceApi.spawned (snd out) = (pre ++ [request])%list
            /\ runChild (List.length pre) request = Service.Rejected reason
            /\ message = "Error calculating planetary positions: " ++ reason)
    /\ (ServiceApi.initialized s = true ->
        ServiceApi.spawned (snd out) = (ServiceApi.spawned s ++ [request])%list
        /\ ServiceApi.initialized (snd out) = true).
Proof.
  intros Json JSON_parse successOf w s year month day hour minute second request out runChild.
  pose proof (positions_call_shape Json JSON_parse successOf w s year month day
                hour minute second) as Hshape.
  cbv zeta in Hshape. fold request in Hshape. fold out in Hshape.
  destruct Hshape as [[Hinit Hout] | (Hinit & Hsp & Hin & Hfst)].
  - rewrite Hout. cbn [fst snd].
    split; [intros reason; discriminate |].
    split; [intros doc H; discriminate H |].
    split; [intros message H; discriminate H |].
    intros Hflag. rewrite Hflag in Hinit. discriminate Hinit.
  - set (pre := ServiceApi.spawned
                  (snd (if ServiceApi.initialized s then (Service.Resolved true, s)
                        else ServiceApi.initialize Json JSON_parse successOf w s))) in *.
    fold (runChild (List.length pre) request) in Hfst.
    split.
    { intros reason. rewrite Hfst. destruct (runChild (List.length pre) request); discriminate. }
    split.
    { intros doc H. exists pre. split; [exact Hsp |].
      rewrite Hfst in H. destruct (runChild (List.length pre) request) eqn:E;
        try discriminate H. congruence. }
    split.
    { intros message H. rewrite Hfst in H.
      destruct (runChild (List.length pre) request) as [| doc | reason] eqn:E;
        try discriminate H.
      exists pre, reason. split; [exact Hsp |]. split; [exact E | congruence]. }
    intros Hflag. subst pre. rewrite Hflag in Hsp, Hin. cbn [fst snd] in Hsp, Hin.
    split; [exact Hsp | congruence].
Qed.

Lemma service_positions_never_rejects_witness :
  let w := {| ServiceApi.spawnFor := fun n r =>
                Service.Spawned [Service.StderrData "no ephemeris"; Service.Close (Some 1)];
              ServiceApi.scriptAt := fun _ => ServiceApi.ScriptPresent |} in
  let out := ServiceApi.calculatePlanetaryPositions unit (fun _ => JSNum.Ok tt)
               (fun _ => true) w (ServiceApi.mkService true []) 2025 6 21 12 30 0 in
  ServiceApi.initialized (ServiceApi.mkService true []) = true
  /\ fst out
     = Service.Resolved
         (ServiceApi.Failed
            ("Error calculating planetary positions: "
             ++ "Calculator process exited with code 1: no ephemeris"))
  /\ List.length (ServiceApi.spawned (snd out)) = 1%nat.
Proof.
  intros w out. split; [reflexivity |]. split; [reflexivity |].
  destruct (proj2 (proj2 (proj2 (service_positions_never_rejects unit (fun _ => JSNum.Ok tt)
                                   (fun _ => true) w (ServiceApi.mkService true [])
                                   2025 6 21 12 30 0))) eq_refl) as [Hsp _].
  exact (f_equal (@List.length _) Hsp).
Defined.
